(** * Offline/model.py: filter stage, channel normaliser and model wrapper

    A shallow embedding of [src/Offline/model.py] (classes [FeatExtractor],
    [ChannelScaler] and [Model]) together with the properties its
    specification states about them.

    Conventions of the embedding.
    - A Python call that may raise returns a [result]: [Ok v] for a normal
      return, [Raise e] for the exception [e].
    - Python [str] values are [string]s; [str.lower] is modelled on the
      ASCII range, where it maps [A-Z] to [a-z] and fixes everything else.
    - NumPy [float64] values are Rocq's binary64 [float]s.
    - Mutable NumPy arrays live in a heap (a list of cells indexed by
      location); a Python reference to an array is a location.
    - SciPy, NumPy reductions, scikit-learn and joblib are external: their
      operations are the fields of interface classes, instantiated only to
      run the model on concrete inputs.
    - The file system is a map from paths to files and directories; a
      write needs the directory of its path.
    - Where the specification states an exact equality of means and
      deviations, the arithmetic of the normaliser is also taken over the
      real numbers. *)

From Stdlib Require Import ZArith QArith List String Ascii Lia Floats.
From Stdlib Require Import Reals Lra.
From Stdlib Require Import Sorting.Permutation Sorting.Sorted.
From stdpp Require Import base option list gmap strings sorting pretty.

Local Open Scope string_scope.
Local Open Scope Z_scope.

(** ** Python exceptions and results *)

Module Py.

Inductive exn : Type :=
| AssertionError
| AttributeError (what : string)
| FileNotFoundError (path : string)
| IndexError
| IsADirectoryError (path : string)
| KeyError (what : string)
| NotADirectoryError (path : string)
| NotFittedError
| OverflowError
| TypeError (what : string)
| ValueError (what : string)
| ZeroDivisionError.

Inductive result (A : Type) : Type :=
| Ok (v : A)
| Raise (e : exn).
Global Arguments Ok {A} v.
Global Arguments Raise {A} e.

Global Instance result_ret : MRet result := fun A v => Ok v.
Global Instance result_bind : MBind result := fun A B f r =>
  match r with
  | Ok v => f v
  | Raise e => Raise e
  end.
Global Instance result_fmap : FMap result := fun A B f r =>
  match r with
  | Ok v => Ok (f v)
  | Raise e => Raise e
  end.

(** [[f(x) for x in xs]], stopping at the first exception. *)
Fixpoint traverse {A B : Type} (f : A -> result B) (xs : list A) : result (list B) :=
  match xs with
  | [] => Ok []
  | x :: r =>
      match f x with
      | Ok y =>
          match traverse f r with
          | Ok ys => Ok (y :: ys)
          | Raise e => Raise e
          end
      | Raise e => Raise e
      end
  end.

(** Computations on a store [S] that may raise: the store changes made
    before an exception stay. *)
Definition comp (S A : Type) : Type := S -> S * result A.

Definition ret {S A : Type} (v : A) : comp S A := fun s => (s, Ok v).

Definition raise {S A : Type} (e : exn) : comp S A := fun s => (s, Raise e).

Definition bind {S A B : Type} (c : comp S A) (k : A -> comp S B) : comp S B :=
  fun s =>
    match c s with
    | (s', Ok v) => k v s'
    | (s', Raise e) => (s', Raise e)
    end.

Definition lift {S A : Type} (r : result A) : comp S A := fun s => (s, r).

Notation "'let*' x ':=' c 'in' k" := (bind c (fun x => k))
  (at level 10, x pattern, c at level 100, k at level 200).

(** [x in xs] on strings. *)
Definition str_in (s : string) (xs : list string) : bool :=
  existsb (String.eqb s) xs.

(** [str.lower] on one ASCII character. *)
Definition lower_char (c : ascii) : ascii :=
  let n := N_of_ascii c in
  if ((65 <=? n) && (n <=? 90))%N then ascii_of_N (n + 32) else c.

(** [str.lower]. *)
Fixpoint lower (s : string) : string :=
  match s with
  | EmptyString => EmptyString
  | String c r => String (lower_char c) (lower r)
  end.

(** Two characters are the same letter up to case: equal, or one is an
    upper-case ASCII letter and the other its lower-case form. *)
Definition case_pair (c d : ascii) : Prop :=
  (65 <= N_of_ascii c <= 90)%N /\ N_of_ascii d = (N_of_ascii c + 32)%N.

Definition same_letter (c d : ascii) : Prop :=
  c = d \/ case_pair c d \/ case_pair d c.

(** Two strings differ at most in the case of their letters. *)
Fixpoint caseless (s t : string) : Prop :=
  match s, t with
  | EmptyString, EmptyString => True
  | String c s', String d t' => same_letter c d /\ caseless s' t'
  | _, _ => False
  end.

End Py.
Import Py.

(** ** Arrays of floats *)

Module Array.

#[local] Unset Elimination Schemes.

(** An array of rank at least one: a trailing axis of floats, or a stack of
    arrays along a leading axis. *)
Inductive ndarray : Type :=
| Row (xs : list float)
| Stack (subs : list ndarray).

(** The extent of every axis at every position (for a rectangular array,
    NumPy's [shape]). *)
Inductive shape : Type :=
| SRow (n : nat)
| SStack (subs : list shape).

Fixpoint shape_of (d : ndarray) : shape :=
  match d with
  | Row xs => SRow (length xs)
  | Stack ds => SStack (map shape_of ds)
  end.

(** The one-dimensional slices along the trailing axis, in index order. *)
Fixpoint rows (d : ndarray) : list (list float) :=
  match d with
  | Row xs => [xs]
  | Stack ds => concat (map rows ds)
  end.

(** [f] applied to every slice along the last axis ([axis=-1]); the call
    raises as soon as [f] raises on a slice. *)
Fixpoint along_last (f : list float -> result (list float)) (d : ndarray)
  : result ndarray :=
  match d with
  | Row xs => Row <$> f xs
  | Stack ds => Stack <$> traverse (along_last f) ds
  end.

End Array.
Import Array.

(** ** The SciPy operations the module calls *)

Module Signal.

(** [scipy.signal], as far as [model.py] uses it.
    - [firwin numtaps cutoff fs pass_zero] is
      [signal.firwin(numtaps, cutoff, fs=fs, pass_zero=pass_zero)].
    - [filtfilt b a x] is [signal.filtfilt(b, a, x)] on a one-dimensional
      [x]; on an array, [axis=-1] applies it to every trailing slice.
    - [detrend x] is [signal.detrend(x, type='linear')] on a
      one-dimensional [x]. *)
Class SciPy : Type := {
  firwin : Z -> list float -> Z -> bool -> result (list float);
  filtfilt : list float -> list float -> list float -> result (list float);
  detrend : list float -> list float
}.

(** What SciPy documents of [filtfilt]: the output has the shape of the
    input. *)
Definition filtfilt_keeps_length `{SciPy} : Prop :=
  forall b a x y, filtfilt b a x = Ok y -> length y = length x.

End Signal.
Import Signal.

(** ** The filter stage *)

Module FeatExtractor.

(** The attributes of a [FeatExtractor] object. [filter_erp] is the pair
    [(b_erp, 1)]; the denominator [1] is kept as the one-element array
    SciPy turns it into. *)
Record t : Type := {
  _band_erp : list float;
  sfreq : Z;
  filter_erp : list float * list float
}.

Section WithSciPy.
Context `{SciPy}.

(** [FeatExtractor.__init__(sfreq, band_erp, n)]. [band_erp] and [n] are
    [None] when the argument is left out; a band is the list of its values
    ([np.array(band_erp).size] is its length). [int(sfreq / 5)] truncates
    the quotient toward zero. *)
Definition init (sfreq0 : Z) (band_erp : option (list float)) (n : option Z)
  : result t :=
  match band_erp with
  | None => Raise AssertionError
  | Some band =>
      let n := match n with None => Z.quot sfreq0 5 | Some n => n end in
      b_erp ← (if Nat.eqb (length band) 1
               then firwin (n + 1) band sfreq0 true
               else firwin (n + 1) band sfreq0 false);
      Ok {| _band_erp := band; sfreq := sfreq0;
            filter_erp := (b_erp, [1%float]) |}
  end.

(** [FeatExtractor.__call__(data)] *)
Definition call (self : t) (data : ndarray) : result ndarray :=
  along_last (filtfilt (fst (filter_erp self)) (snd (filter_erp self))) data.

End WithSciPy.

End FeatExtractor.

(** ** The channel normaliser *)

Module Scaler.

(** The value of [norm_axis]: the tuple [(0, 2)] or the integer [0]. *)
Inductive axes : Type :=
| Axes02
| Axis0.

(** An epoch tensor: epochs, channels, time samples. *)
Abbreviation tensor := (list (list (list float))) (only parsing).

(** A location of the array heap, and the heap: one cell per array object
    created so far. *)
Abbreviation loc := nat (only parsing).
Abbreviation heap := (list (list (list (list float)))) (only parsing).

(** [np.mean] and [np.std] with [axis=ax, keepdims=True]. *)
Class NumPy : Type := {
  np_mean : axes -> tensor -> tensor;
  np_std : axes -> tensor -> tensor
}.

(** The attributes of a [ChannelScaler] object. The statistics are
    references to arrays, [None] before [fit]; [norm_axis] is [None] while
    the attribute is unset. *)
Record ChannelScaler : Type := {
  channel_mean_ : option loc;
  channel_std_ : option loc;
  norm_method : string;
  norm_axis : option axes
}.

(** [ChannelScaler.__init__] *)
Definition init (norm_method0 : string) : result ChannelScaler :=
  let nm := lower norm_method0 in
  if negb (str_in nm ["channel"; "dim"]) then
    Raise (KeyError "Unsupported normalization method")
  else
    Ok {| channel_mean_ := None;
          channel_std_ := None;
          norm_method := nm;
          norm_axis :=
            if String.eqb nm "channel" then Some Axes02
            else if String.eqb nm "dim" then Some Axis0
            else None |}.

(** A new array object holding [v]. *)
Definition alloc (v : tensor) : comp heap loc :=
  fun h => ((h ++ [v])%list, Ok (length h)).

(** The array a reference points to. *)
Definition deref (l : loc) : comp heap tensor :=
  fun h =>
    match h !! l with
    | Some v => (h, Ok v)
    | None => (h, Raise (ValueError "no such array"))
    end.

(** Overwriting the contents of an array object. *)
Definition store (l : loc) (v : tensor) : comp heap unit :=
  fun h => (<[l := v]> h, Ok tt).

(** One axis of an in-place binary operation [xs op= ms]: the right operand
    is stretched when its extent is one, and must otherwise have the extent
    of the left operand, which keeps its shape. Nested lists carry the
    extents of their axes only where they have entries: the empty list
    stands for every array without entries along its first axis, so that an
    operation on it compares no further extent (NumPy compares them all,
    and refuses the operation when they disagree). *)
Definition bcast {A B : Type} (g : A -> B -> result A) (xs : list A) (ms : list B)
  : result (list A) :=
  match ms with
  | [m] => traverse (fun x => g x m) xs
  | _ =>
      if Nat.eqb (length ms) (length xs)
      then traverse (fun p => g (fst p) (snd p)) (zip xs ms)
      else Raise (ValueError "operands could not be broadcast together")
  end.

(** [x op m] written into the shape of [x], on three axes. *)
Definition elementwise {A : Type} (op : A -> A -> A) (x m : list (list (list A)))
  : result (list (list (list A))) :=
  bcast (bcast (bcast (fun a b => Ok (op a b)))) x m.

(** The right operand of an in-place operation: an attribute that is still
    [None] is no array. *)
Definition operand (attr : option loc) : comp heap tensor :=
  match attr with
  | Some l => deref l
  | None => raise (TypeError "unsupported operand type: NoneType")
  end.

(** [X op= attr] *)
Definition inplace (op : float -> float -> float) (X : loc) (attr : option loc)
  : comp heap unit :=
  let* x := deref X in
  let* m := operand attr in
  let* v := lift (elementwise op x m) in
  store X v.

Section WithNumPy.
Context `{NumPy}.

(** [ChannelScaler.fit(X)]: the two statistics are new arrays; the object
    with its attributes updated is returned. *)
Definition fit (self : ChannelScaler) (X : loc) : comp heap ChannelScaler :=
  let* x := deref X in
  let* ax := match norm_axis self with
             | Some ax => ret ax
             | None => raise (AttributeError "norm_axis")
             end in
  let* lm := alloc (np_mean ax x) in
  let* ls := alloc (np_std ax x) in
  ret {| channel_mean_ := Some lm;
         channel_std_ := Some ls;
         norm_method := norm_method self;
         norm_axis := norm_axis self |}.

End WithNumPy.

(** [ChannelScaler.transform(X)] *)
Definition transform (self : ChannelScaler) (X : loc) : comp heap loc :=
  let* x := deref X in
  let* X := alloc x in
  let* _ := inplace PrimFloat.sub X (channel_mean_ self) in
  let* _ := inplace PrimFloat.div X (channel_std_ self) in
  ret X.

Section WithNumPy.
Context `{NumPy}.

(** [ChannelScaler.fit_transform(X)]: the heap and the object as the call
    leaves them, and what it returns. The object keeps the statistics of a
    [fit] that succeeded even when [transform] raises after it. *)
Definition fit_transform (self : ChannelScaler) (X : loc) (h : heap)
  : heap * ChannelScaler * result loc :=
  match fit self X h with
  | (h1, Ok self1) =>
      let '(h2, r) := transform self1 X h1 in (h2, self1, r)
  | (h1, Raise e) => (h1, self, Raise e)
  end.

End WithNumPy.

(** What the specification says [transform] returns: the mean subtracted
    and the result divided by the deviation, element by element, in the
    shape of [X]. *)
Definition normalized (x m sd : tensor) : result tensor :=
  d ← elementwise PrimFloat.sub x m; elementwise PrimFloat.div d sd.

(** The entry of [a] at an index, with the stretching of [bcast]: an axis
    of extent one is read at index zero. *)
Definition pick {A : Type} (xs : list A) (i : nat) : option A :=
  match xs with
  | [x] => Some x
  | _ => xs !! i
  end.

Definition at3 {A : Type} (a : list (list (list A))) (e c t : nat) : option A :=
  xs ← a !! e; ys ← xs !! c; ys !! t.

Definition pick3 {A : Type} (a : list (list (list A))) (e c t : nat) : option A :=
  xs ← pick a e; ys ← pick xs c; pick ys t.

(** An array of extents [(E, C, T)]. *)
Definition has_shape {A : Type} (E C T : nat) (x : list (list (list A))) : Prop :=
  length x = E /\
  Forall (fun ep => length ep = C /\ Forall (fun row => length row = T) ep) x.

(** The extents of a statistic with [keepdims=True] of an array of extents
    [(E, C, T)]: [(1, C, 1)] over the axes [(0, 2)], [(1, C, T)] over the
    axis [0]; and where such a statistic is read for the sample [t]. *)
Definition stat_shape {A : Type} (ax : axes) (C T : nat) (m : list (list (list A)))
  : Prop :=
  match ax with
  | Axes02 => has_shape 1 C 1 m
  | Axis0 => has_shape 1 C T m
  end.

Definition stat_time (ax : axes) (t : nat) : nat :=
  match ax with
  | Axes02 => 0
  | Axis0 => t
  end.

(** NumPy's contract for a reduction with [keepdims=True]: the reduced axes
    are kept with extent one. (It is stated for an array with an epoch: the
    empty list stands for every array without one, and carries no other
    extent.) *)
Definition keepdims `{NumPy} : Prop :=
  forall (ax : axes) (E C T : nat) (x : tensor),
    (0 < E)%nat ->
    has_shape E C T x ->
    stat_shape ax C T (np_mean ax x) /\ stat_shape ax C T (np_std ax x).

End Scaler.

(** ** The epoch segmenter's helpers *)

Module Utils.

(** [int(q)]: truncation toward zero. *)
Definition trunc (q : Q) : Z := Z.quot (Qnum q) (Zpos (Qden q)).

(** [row[a:b]] for [0 <= a]; an index past the end is clipped. *)
Definition slice {A : Type} (a b : Z) (row : list A) : list A :=
  take (Z.to_nat (b - Z.max a 0)) (drop (Z.to_nat a) row).

(** [np.mean] of a one-dimensional array, summed left to right. *)
Definition mean (xs : list float) : float :=
  PrimFloat.div (fold_left PrimFloat.add xs 0%float)
                (PrimFloat.of_uint63 (Uint63.of_Z (Z.of_nat (length xs)))).

(** Modelled from the spec: [utils.cut_epochs(t_base, raw_data, timestamps)]
    is not among the sources. "Cut fixed-length windows [start, end]
    (relative to each timestamp, in the recording's native sample rate)
    around every timestamp, producing one epoch per timestamp": the epoch of
    a timestamp holds, for every channel, the samples from
    [ts + int(start * rate)] up to [ts + int(end * rate)]. *)
Definition cut_one (t : Q * Q * Z) (raw_data : list (list float)) (ts : Z)
  : list (list float) :=
  let '(t0, t1, rate) := t in
  map (slice (ts + trunc (t0 * inject_Z rate)) (ts + trunc (t1 * inject_Z rate)))
      raw_data.

(** Modelled from the spec: [utils.cut_epochs], one epoch per timestamp, in
    the order of the timestamps. *)
Definition cut_epochs (t : Q * Q * Z) (raw_data : list (list float))
  (timestamps : list Z) : list (list (list float)) :=
  map (cut_one t raw_data) timestamps.

(** The order in which the epochs of a trial are put: by label, and by
    arrival among equal labels. A pair is a label and an arrival slot. *)
Definition label_le (p q : nat * nat) : Prop :=
  (fst p < fst q)%nat \/ (fst p = fst q /\ (snd p <= snd q)%nat).

Global Instance label_le_dec : RelDecision label_le.
Proof. intros p q. unfold label_le. apply _. Defined.

(** The arrival slots of a trial in the order of their labels. *)
Definition argsort (labels : list nat) : list nat :=
  (merge_sort label_le (zip labels (seq 0 (length labels)))).*2.

(** The arrival index of the epoch at every position of the output, the
    first row of [events] starting at arrival index [first]. *)
Fixpoint sorted_slots (first : nat) (events : list (list nat)) : list nat :=
  match events with
  | [] => []
  | row :: rest =>
      (map (Nat.add first) (argsort row)
       ++ sorted_slots (first + length row)%nat rest)%list
  end.

(** Modelled from the spec: [utils.sort_epochs(epochs, events)] is not among
    the sources. "Reorder epochs so their ordering matches the row-major
    flattening of the event matrix (trial-major, then
    repetition-within-trial) rather than timestamp arrival order"; the
    event matrix is a "2D array (trials x repetitions-per-trial) of
    label/identifier values". The epochs arrive trial after trial, and row
    [trial] of the matrix holds the labels of that trial's epochs in the
    order of their arrival. The output is a reordering: the epochs of a
    trial keep the block of positions of their trial, and within it they
    are put in ascending order of their labels. The function returns on
    every input; a position for which no epoch arrived holds nothing. *)
Definition sort_epochs {A : Type} (epochs : list A) (events : list (list nat))
  : result (list A) :=
  Ok (omap (fun i => epochs !! i) (sorted_slots 0 events)).

(** Modelled from the spec: [utils.apply_baseline(t_base, epochs)] is not
    among the sources. "Subtract a baseline value computed from the
    pre-window portion of the cut window"; the pre-onset portion of the cut
    window is the baseline reference: its mean is subtracted from every
    sample of the channel. *)
Definition baseline_row (t : Q * Q * Z) (row : list float) : list float :=
  let '(t0, _, rate) := t in
  let b := mean (slice 0 (trunc (- t0 * inject_Z rate)) row) in
  map (fun v => PrimFloat.sub v b) row.

(** Modelled from the spec: [utils.apply_baseline], on every channel of
    every epoch. *)
Definition apply_baseline (t : Q * Q * Z) (epochs : list (list (list float)))
  : list (list (list float)) :=
  map (map (baseline_row t)) epochs.

(** Modelled from the spec: [utils.timewindow((start, end), window, epochs)]
    is not among the sources. "Re-window to a possibly narrower analysis
    window specified separately from the cut window": of the samples that
    span [start, end], those of the analysis window are kept. *)
Definition window_row (t : Q * Q) (w : Q * Q) (row : list float) : list float :=
  let n := inject_Z (Z.of_nat (length row)) in
  let at_time q := trunc ((q - fst t) / (snd t - fst t) * n) in
  slice (at_time (fst w)) (at_time (snd w)) row.

(** Modelled from the spec: [utils.timewindow], on every channel of every
    epoch. *)
Definition timewindow (t : Q * Q) (w : Q * Q) (epochs : list (list (list float)))
  : list (list (list float)) :=
  map (map (window_row t w)) epochs.

(** [row[::d]] for a positive step: the entries at 0, d, 2d, ...
    ([k] counts the entries to skip before the next one kept). *)
Fixpoint every {A : Type} (d k : nat) (row : list A) : list A :=
  match row with
  | [] => []
  | x :: r =>
      match k with
      | O => x :: every d (pred d) r
      | S k' => every d k' r
      end
  end.

(** [row[::d]]: a zero step is a [ValueError], a negative step walks from
    the last entry backwards. *)
Definition step_slice {A : Type} (d : Z) (row : list A) : result (list A) :=
  if d =? 0 then Raise (ValueError "slice step cannot be zero")
  else if 0 <? d then Ok (every (Z.to_nat d) 0 row)
  else Ok (every (Z.to_nat (- d)) 0 (rev row)).

(** What [row[::d]] holds for a step that is not zero. *)
Definition stride {A : Type} (d : Z) (row : list A) : list A :=
  if 0 <? d then every (Z.to_nat d) 0 row else every (Z.to_nat (- d)) 0 (rev row).

End Utils.

(** ** The model wrapper *)

Module Model.
Import Scaler Utils.

(** scikit-learn's pipeline and joblib's pickling of it, as far as
    [model.py] uses them. [make_pipeline n_components C] is the unfitted
    pipeline of [__init__]; [pipeline_fit] updates the pipeline object and
    may raise after doing so; a pickled pipeline is read back as it was
    written. *)
Class Sklearn : Type := {
  pipeline : Type;
  scores : Type;
  make_pipeline : Z -> float -> pipeline;
  pipeline_fit : pipeline -> tensor -> list Z -> pipeline * result unit;
  pipeline_decision_function : pipeline -> tensor -> result scores
}.

(** A reference to an array of channel indices, and the heap of these
    arrays. *)
Abbreviation ref := nat (only parsing).
Abbreviation arrays := (list (list Z)) (only parsing).

(** The coefficient store [data_dict]: the dict of train mode, whose
    entries are references, or the [NpzFile] that [np.load] returns for an
    [.npz] archive in test mode. An [NpzFile] is a read-only mapping over
    the archive's contents: reading an item loads it into a new array, and
    it has no item assignment. *)
Inductive store : Type :=
| PyDict (d : gmap string ref)
| NpzFile (z : gmap string (list Z)).

(** The attributes of a [Model] object; [_ch_ind] is [None] while the
    attribute is unset. *)
Record t `{Sklearn} : Type := {
  _subj_path : string;
  _date : string;
  mode : string;
  data_dict : store;
  cls : pipeline;
  _ch_ind : option ref
}.

(** An entry of the file system: an [.npz] archive, a pickled pipeline, or
    a directory. *)
Inductive file `{Sklearn} : Type :=
| NpzArchive (entries : gmap string (list Z))
| Pickle (p : pipeline)
| Directory.

(** What the methods act on: the array heap and the file system, whose
    entries are kept by the path string the program opens them with (["."],
    [".."] and repeated separators are not resolved). *)
Record world `{Sklearn} : Type := {
  mem : arrays;
  disk : gmap string file
}.

(** A [datetime], and the [date] argument of the constructor. *)
Record datetime : Type := {
  year : nat; month : nat; day : nat;
  hour : nat; minute : nat; second : nat
}.

Inductive date_arg : Type :=
| NoDate
| DateTime (dt : datetime)
| DateStr (s : string).

(** The keyword arguments of the constructor; [None] when left out. *)
Record kwargs : Type := {
  kw_C : option float;
  kw_n_components : option Z
}.

(** What [config.cfg] supplies. *)
Record config : Type := {
  subjname : string;
  rec_type : string;
  off_start : Q;
  off_end : Q;
  time_window : Q * Q;
  downsamp : Z;
  samplerate : Z
}.

(** Two digits, zero padded. *)
Definition two_digits (n : nat) : string :=
  if (n <? 10)%nat then "0" ++ pretty n else pretty n.

(** [dt.strftime("%Y-%m-%d-%H-%M-%S")] *)
Definition strftime (dt : datetime) : string :=
  pretty (year dt) ++ "-" ++ two_digits (month dt) ++ "-" ++ two_digits (day dt)
  ++ "-" ++ two_digits (hour dt) ++ "-" ++ two_digits (minute dt)
  ++ "-" ++ two_digits (second dt).

(** [os.path.join] on POSIX paths, one component at a time: a component
    that starts with the separator replaces the path so far, and the
    separator is put before any other component unless the path so far is
    empty or ends with it. *)
Definition starts_with_sep (s : string) : bool :=
  match s with
  | String c _ => Ascii.eqb c "/"
  | EmptyString => false
  end.

Fixpoint ends_with_sep (s : string) : bool :=
  match s with
  | EmptyString => false
  | String c EmptyString => Ascii.eqb c "/"
  | String _ r => ends_with_sep r
  end.

Definition join_component (path b : string) : string :=
  if starts_with_sep b then b
  else if String.eqb path "" || ends_with_sep path then path ++ b
  else path ++ "/" ++ b.

(** [os.path.join(a, b, c)] *)
Definition path_join (a b c : string) : string :=
  join_component (join_component a b) c.

Definition ind_ch_scores : string := "ind_ch_scores".

Section WithLibraries.
Context `{SciPy} `{Sklearn}.

(** The surroundings of the module: the configuration, the directory of
    [model.py], and [utils.find_nearest_time]. *)
Variable cfg : config.
Variable module_dir : string.
Variable find_nearest_time : gmap string file -> string -> string.

(** The same object with another index set or another coefficient store. *)
Definition with_ch_ind (self : t) (value : ref) : t :=
  {| _subj_path := _subj_path self; _date := _date self; mode := mode self;
     data_dict := data_dict self; cls := cls self; _ch_ind := Some value |}.

Definition with_data_dict (self : t) (d : store) : t :=
  {| _subj_path := _subj_path self; _date := _date self; mode := mode self;
     data_dict := d; cls := cls self; _ch_ind := _ch_ind self |}.

Definition get_world : comp world world := fun w => (w, Ok w).

(** A new array object holding [v]. *)
Definition new_array (v : list Z) : comp world ref :=
  fun w => ({| mem := (mem w ++ [v])%list; disk := disk w |}, Ok (length (mem w))).

(** [np.load(path)] *)
Definition np_load (path : string) : comp world store :=
  fun w =>
    match disk w !! path with
    | Some (NpzArchive z) => (w, Ok (NpzFile z))
    | Some (Pickle _) => (w, Raise (ValueError "not an archive"))
    | Some Directory => (w, Raise (IsADirectoryError path))
    | None => (w, Raise (FileNotFoundError path))
    end.

(** [joblib.load(path)] *)
Definition joblib_load (path : string) : comp world pipeline :=
  fun w =>
    match disk w !! path with
    | Some (Pickle p) => (w, Ok p)
    | Some (NpzArchive _) => (w, Raise (ValueError "not a pickle"))
    | Some Directory => (w, Raise (IsADirectoryError path))
    | None => (w, Raise (FileNotFoundError path))
    end.

(** [d[key]]: a dict yields the reference it holds, an [NpzFile] reads the
    entry from the archive into a new array. *)
Definition getitem (d : store) (key : string) : comp world ref :=
  match d with
  | PyDict m =>
      match m !! key with
      | Some r => ret r
      | None => raise (KeyError key)
      end
  | NpzFile z =>
      match z !! key with
      | Some v => new_array v
      | None => raise (KeyError key)
      end
  end.

(** [Model.__init__(subject, date, mode, **kwargs)] *)
Definition init (subject : option string) (date : date_arg) (mode0 : string)
  (kw : kwargs) : comp world t :=
  let subject := match subject with None => subjname cfg | Some s => s end in
  let subj_path := module_dir ++ "/../data/" ++ subject in
  let* w := get_world in
  let date := match date with
              | NoDate => find_nearest_time (disk w) subj_path
              | DateTime dt => strftime dt
              | DateStr s => s
              end in
  let mode1 := lower mode0 in
  if negb (str_in mode1 ["train"; "test"]) then raise AssertionError
  else if String.eqb mode1 "test" then
    let* dd := np_load (path_join subj_path date "coef.npz") in
    let* p := joblib_load (path_join subj_path date "model.pkl") in
    let* ci := getitem dd ind_ch_scores in
    ret {| _subj_path := subj_path; _date := date; mode := mode1;
           data_dict := dd; cls := p; _ch_ind := Some ci |}
  else
    let C := match kw_C kw with None => 1%float | Some c => c end in
    let n_components := match kw_n_components kw with None => 3 | Some n => n end in
    ret {| _subj_path := subj_path; _date := date; mode := mode1;
           data_dict := PyDict ∅;
           cls := make_pipeline n_components C;
           _ch_ind := None |}.

(** The getter of [ch_ind]. *)
Definition ch_ind (self : t) : result ref :=
  match _ch_ind self with
  | Some r => Ok r
  | None => Raise (AttributeError "_ch_ind")
  end.

(** [value.sort()]: the array object is sorted in place. *)
Definition array_sort (value : ref) : comp (t * arrays) unit :=
  fun s =>
    match snd s !! value with
    | Some v => ((fst s, <[value := merge_sort Z.le v]> (snd s)), Ok tt)
    | None => (s, Raise (ValueError "no such array"))
    end.

(** [self._ch_ind = value] *)
Definition set__ch_ind (value : ref) : comp (t * arrays) unit :=
  fun s =>
    ((with_ch_ind (fst s) value, snd s), Ok tt).

(** [self.data_dict[key] = value]: an [NpzFile] has no item assignment. *)
Definition setitem_data_dict (key : string) (value : ref) : comp (t * arrays) unit :=
  fun s =>
    match data_dict (fst s) with
    | PyDict d =>
        ((with_data_dict (fst s) (PyDict (<[key := value]> d)), snd s), Ok tt)
    | NpzFile _ =>
        (s, Raise (TypeError "'NpzFile' object does not support item assignment"))
    end.

(** The setter of [ch_ind], acting on the object and the array heap. *)
Definition set_ch_ind (value : ref) : comp (t * arrays) unit :=
  let* _ := array_sort value in
  let* _ := set__ch_ind value in
  setitem_data_dict ind_ch_scores value.

(** [Model.fit(X, y)] *)
Definition fit (self : t) (X : tensor) (y : list Z) : t * result unit :=
  let '(p, r) := pipeline_fit (cls self) X y in
  ({| _subj_path := _subj_path self; _date := _date self; mode := mode self;
      data_dict := data_dict self; cls := p; _ch_ind := _ch_ind self |}, r).

(** [Model.decision_function(X)] *)
Definition decision_function (self : t) (X : tensor) : result scores :=
  pipeline_decision_function (cls self) X.

(** [data[idx]] for an index array: negative indices count from the end. *)
Definition take_indices {A : Type} (idx : list Z) (data : list A) : result (list A) :=
  traverse (fun i =>
              let n := Z.of_nat (length data) in
              let j := if i <? 0 then i + n else i in
              if (0 <=? j) && (j <? n) then
                match data !! Z.to_nat j with
                | Some r => Ok r
                | None => Raise IndexError
                end
              else Raise IndexError)
           idx.

(** [Model.extract_feature(extractor, data, channel_selection)] *)
Definition extract_feature (self : t) (extractor : ndarray -> result ndarray)
  (data : ndarray) (channel_selection : bool) (h : arrays) : result ndarray :=
  if channel_selection then
    r ← ch_ind self;
    match h !! r, data with
    | Some idx, Stack chans => sel ← take_indices idx chans; extractor (Stack sel)
    | Some idx, Row xs => sel ← take_indices idx xs; extractor (Row sel)
    | None, _ => Raise (ValueError "no such array")
    end
  else extractor data.

(** [signal.detrend(epochs, axis=-1, type='linear')] *)
Definition signal_detrend (epochs : tensor) : tensor := map (map detrend) epochs.

(** [epochs[..., ::down_ratio]]: a zero step is refused whatever the
    extents of the array. *)
Definition downsample (down_ratio : Z) (epochs : tensor) : result tensor :=
  if down_ratio =? 0 then Raise (ValueError "slice step cannot be zero")
  else traverse (traverse (step_slice down_ratio)) epochs.

(** [n / d] rounded to the nearest integer, a tie going to the even one,
    for [0 <= n] and [0 < d]. *)
Definition round_half_even (n d : Z) : Z :=
  let q := n / d in
  let r := n mod d in
  if 2 * r <? d then q
  else if d <? 2 * r then q + 1
  else if Z.even q then q else q + 1.

(** [int(a / b)] on integers. The true division [a / b] is the binary64
    number nearest to the quotient (53 significant bits, ties to even; it
    raises when the quotient is beyond the range of binary64), and [int]
    truncates it toward zero. With [2 ^ e <= |a| / |b| < 2 ^ (e + 1)] the
    quotient is rounded to [m * 2 ^ k] for [k = max(e, -1022) - 52]. *)
Definition int_div (a b : Z) : result Z :=
  if b =? 0 then Raise ZeroDivisionError
  else if a =? 0 then Ok 0
  else
    let n := Z.abs a in
    let d := Z.abs b in
    let e0 := Z.log2 n - Z.log2 d in
    let e := if (if 0 <=? e0 then d * 2 ^ e0 <=? n else d <=? n * 2 ^ (- e0))
             then e0 else e0 - 1 in
    let k := Z.max e (-1022) - 52 in
    let m := if 0 <=? k then round_half_even n (d * 2 ^ k)
             else round_half_even (n * 2 ^ (- k)) d in
    if 1024 <=? k + Z.log2 m then Raise OverflowError
    else
      Ok (Z.sgn a * Z.sgn b * (if 0 <=? k then m * 2 ^ k else m / 2 ^ (- k))).

(** [Model.raw2epoch(raw_data, timestamps, events)] *)
Definition raw2epoch (raw_data : list (list float)) (timestamps : list Z)
  (events : list (list nat)) : result tensor :=
  epochs ← (if String.eqb (rec_type cfg) "eeg" then
              let t_base := (off_start cfg, off_end cfg, samplerate cfg) in
              let epochs := cut_epochs t_base raw_data timestamps in
              epochs ← sort_epochs epochs events;
              let epochs := signal_detrend epochs in
              let epochs := apply_baseline t_base epochs in
              let epochs := timewindow (off_start cfg, off_end cfg)
                                       (time_window cfg) epochs in
              Ok epochs
            else Raise (KeyError "Unsupported recording type."));
  down_ratio ← int_div (samplerate cfg) (downsamp cfg);
  downsample down_ratio epochs.

(** What one channel of one epoch goes through after the cut and the
    reordering: detrending, baseline correction, the analysis window and
    the decimation by [down_ratio], in this order. *)
Definition per_channel (down_ratio : Z) (row : list float) : list float :=
  stride down_ratio
    (window_row (off_start cfg, off_end cfg) (time_window cfg)
       (baseline_row (off_start cfg, off_end cfg, samplerate cfg)
          (detrend row))).

(** The session a construction resolves to. *)
Definition subj_path_of (subject : option string) : string :=
  (module_dir ++ "/../data/" ++ default (subjname cfg) subject)%string.

Definition date_of (subject : option string) (date : date_arg) (w : world) : string :=
  match date with
  | NoDate => find_nearest_time (disk w) (subj_path_of subject)
  | DateTime dt => strftime dt
  | DateStr s => s
  end.

(** The properties of a wrapper of train mode that its methods keep. *)
Definition consistent (subj_path date : string) (s : t * arrays) : Prop :=
  _subj_path (fst s) = subj_path /\
  _date (fst s) = date /\
  mode (fst s) = "train" /\
  ((data_dict (fst s) = PyDict ∅ /\ _ch_ind (fst s) = None) \/
   exists r a,
     data_dict (fst s) = PyDict (<[ind_ch_scores := r]> ∅) /\
     _ch_ind (fst s) = Some r /\
     snd s !! r = Some a /\
     Sorted Z.le a).

(** A call that changes a wrapper: [fit(X, y)] or the assignment
    [ch_ind = value]; and the wrapper and the array heap after a sequence of
    such calls, each running whether or not the one before it raised. *)
Inductive call : Type :=
| CallFit (X : tensor) (y : list Z)
| Assign (value : ref).

Definition step (s : t * arrays) (c : call) : t * arrays :=
  match c with
  | CallFit X y => (fst (fit (fst s) X y), snd s)
  | Assign value => fst (set_ch_ind value s)
  end.

Definition run (calls : list call) (s : t * arrays) : t * arrays :=
  fold_left step calls s.

(** The arrays the entries of a dict refer to, as [np.savez] writes them. *)
Definition snapshot (d : gmap string ref) (h : arrays) : gmap string (list Z) :=
  omap (fun r => h !! r) d.

(** The directory of a wrapper's session, in which its two files lie:
    [os.path.join(self._subj_path, self._date)]. *)
Definition session_dir (self : t) : string :=
  join_component (_subj_path self) (_date self).

(** Whether [path] is a regular file. *)
Definition is_file (dk : gmap string file) (path : string) : bool :=
  match dk !! path with
  | Some (NpzArchive _) | Some (Pickle _) => true
  | _ => false
  end.

(** Whether the directory [dir] exists: it is an entry of the file system,
    or one of the two files of a session lies in it (a file lies in a
    directory that exists). The empty path is the current directory. *)
Definition dir_exists (dk : gmap string file) (dir : string) : bool :=
  String.eqb dir ""
  || match dk !! dir with Some Directory => true | _ => false end
  || is_file dk (join_component dir "coef.npz")
  || is_file dk (join_component dir "model.pkl").

(** Whether [os.path.join(dir, name)] can be opened for writing: the
    directory exists and the path is not itself a directory; and whether
    both files of a session can. *)
Definition writable (dk : gmap string file) (dir name : string) : bool :=
  match dk !! join_component dir name with
  | Some Directory => false
  | _ => dir_exists dk dir
  end.

Definition session_writable (dk : gmap string file) (dir : string) : bool :=
  writable dk dir "coef.npz" && writable dk dir "model.pkl".

(** Opening [os.path.join(dir, name)] for writing and writing [f]: the file
    is created or replaced. Neither [np.savez] nor [joblib.dump] creates a
    directory: without the directory [dir] the call raises, and nothing is
    written. *)
Definition write_file (dir name : string) (f : file) : comp world unit :=
  fun w =>
    let path := join_component dir name in
    match disk w !! path with
    | Some Directory => (w, Raise (IsADirectoryError path))
    | _ =>
        if dir_exists (disk w) dir then
          ({| mem := mem w; disk := <[path := f]> (disk w) |}, Ok tt)
        else if is_file (disk w) dir then (w, Raise (NotADirectoryError path))
        else (w, Raise (FileNotFoundError path))
    end.

(** [np.savez(path, **self.data_dict)], under [if self.data_dict:] *)
Definition save_coef (self : t) : comp world unit :=
  match data_dict self with
  | PyDict d =>
      if decide (d = ∅) then ret tt
      else
        let* w := get_world in
        write_file (session_dir self) "coef.npz" (NpzArchive (snapshot d (mem w)))
  | NpzFile z =>
      if decide (z = ∅) then ret tt
      else write_file (session_dir self) "coef.npz" (NpzArchive z)
  end.

(** [Model.dump()]; the pipeline attribute is never [None]. An exception of
    [np.savez] ends the call before [joblib.dump] runs. *)
Definition dump (self : t) : comp world unit :=
  let* _ := save_coef self in
  write_file (session_dir self) "model.pkl" (Pickle (cls self)).

End WithLibraries.

End Model.

(** ** Instances of the library interfaces, to run the model *)

Module Reference.
Import Scaler Model.

Definition of_nat (n : nat) : float := PrimFloat.of_uint63 (Uint63.of_Z (Z.of_nat n)).

Definition fsum (xs : list float) : float := fold_left PrimFloat.add xs 0%float.

(** One step of an FIR filter in transposed direct form: the output sample
    and the next delay line. *)
Definition fir_step (b z : list float) (x : float) : float * list float :=
  ((hd 0 b * x + hd 0 z)%float,
   zip_with (fun bk zk => (bk * x + zk)%float) (tl b) (tl z ++ [0%float])%list).

Fixpoint lfilter (b z xs : list float) : list float :=
  match xs with
  | [] => []
  | x :: r => fst (fir_step b z x) :: lfilter b (snd (fir_step b z x)) r
  end.

(** The delay line of the step response's steady state. *)
Definition lfilter_zi (b : list float) : list float :=
  map (fun k => fsum (drop (S k) b)) (seq 0 (pred (length b))).

(** Odd extension of [x] by [n] samples at both ends. *)
Definition odd_ext (x : list float) (n : nat) : list float :=
  (map (fun v => (2 * hd 0 x - v)%float) (rev (take n (drop 1 x)))
   ++ x
   ++ map (fun v => (2 * hd 0 (rev x) - v)%float) (take n (drop 1 (rev x))))%list.

(** Forward-backward filtering with the default padding, for the
    denominator [[1]]. *)
Definition fir_filtfilt (b a x : list float) : result (list float) :=
  let edge := (3 * Nat.max (length a) (length b))%nat in
  if (length x <=? edge)%nat then
    Raise (ValueError "The length of the input vector x must be greater than padlen")
  else
    let ext := odd_ext x edge in
    let zi := lfilter_zi b in
    let y := lfilter b (map (fun z => (z * hd 0 ext)%float) zi) ext in
    let y := lfilter b (map (fun z => (z * hd 0 (rev y))%float) zi) (rev y) in
    Ok (take (length x) (drop edge (rev y))).

(** A stand-in for the window design: the moving average over [numtaps]
    samples. *)
Definition boxcar (numtaps : Z) (cutoff : list float) (fs : Z) (pass_zero : bool)
  : result (list float) :=
  if (numtaps <? 1) || Nat.eqb (length cutoff) 0 then
    Raise (ValueError "invalid filter design")
  else
    Ok (repeat (1 / of_nat (Z.to_nat numtaps))%float (Z.to_nat numtaps)).

(** Removal of the least-squares line. *)
Definition linear_detrend (y : list float) : list float :=
  let n := of_nat (length y) in
  let idx := map of_nat (seq 0 (length y)) in
  let sx := fsum idx in
  let sy := fsum y in
  let sxx := fsum (map (fun i => (i * i)%float) idx) in
  let sxy := fsum (zip_with PrimFloat.mul idx y) in
  let slope := ((n * sxy - sx * sy) / (n * sxx - sx * sx))%float in
  let icpt := ((sy - slope * sx) / n)%float in
  zip_with (fun i v => (v - (slope * i + icpt))%float) idx y.

Definition scipy : SciPy :=
  {| firwin := boxcar; filtfilt := fir_filtfilt; detrend := linear_detrend |}.

(** The values of channel [c] over all epochs and samples, and the values
    of the feature at ([c], [t]) over all epochs. *)
Definition channel_values (x : tensor) (c : nat) : list float :=
  concat (omap (fun ep => ep !! c) x).

Definition feature_values (x : tensor) (c t : nat) : list float :=
  omap (fun ep => row ← ep !! c; row !! t) x.

(** The population standard deviation, summed left to right. *)
Definition deviation (xs : list float) : float :=
  PrimFloat.sqrt
    (Utils.mean (map (fun v => ((v - Utils.mean xs) * (v - Utils.mean xs))%float) xs)).

(** A statistic over the axes [ax], with [keepdims=True]. *)
Definition statistic (f : list float -> float) (ax : axes) (x : tensor) : tensor :=
  let chans := seq 0 (length (hd [] x)) in
  let times := seq 0 (length (hd [] (hd [] x))) in
  match ax with
  | Axes02 => [map (fun c => [f (channel_values x c)]) chans]
  | Axis0 => [map (fun c => map (fun t => f (feature_values x c t)) times) chans]
  end.

Definition numpy : NumPy :=
  {| np_mean := statistic Utils.mean; np_std := statistic deviation |}.

(** A stand-in for the classifier: fitting records the number of training
    epochs, and an epoch's score is that weight times its first sample. *)
Definition toy_fit (p : Z * float * option float) (X : tensor) (y : list Z)
  : (Z * float * option float) * result unit :=
  if Nat.eqb (length X) (length y)
  then ((fst (fst p), snd (fst p), Some (of_nat (length y))), Ok tt)
  else (p, Raise (ValueError "inconsistent numbers of samples")).

Definition toy_decision (p : Z * float * option float) (X : tensor)
  : result (list float) :=
  match snd p with
  | Some w => Ok (map (fun ep => (w * hd 0 (hd [] ep))%float) X)
  | None => Raise NotFittedError
  end.

Definition sklearn : Sklearn :=
  {| pipeline := Z * float * option float;
     scores := list float;
     make_pipeline := fun n c => (n, c, None);
     pipeline_fit := toy_fit;
     pipeline_decision_function := toy_decision |}.

(** A configuration, and the most recent session of every subject. *)
Definition cfg : config :=
  {| subjname := "S1";
     rec_type := "eeg";
     off_start := (-1 # 5)%Q;
     off_end := (4 # 5)%Q;
     time_window := (0 # 1, 3 # 5)%Q;
     downsamp := 5;
     samplerate := 10 |}.

Definition latest (_ : gmap string (@file sklearn)) (_ : string) : string :=
  "2020-01-01-00-00-00".

End Reference.

(** ** The normaliser's arithmetic: binary64, and the reals *)

Module Exact.
Import Scaler.

(** The operations that [ChannelScaler] and the two reductions apply to
    the entries of an array. *)
Record arith (A : Type) : Type := {
  zero : A;
  add : A -> A -> A;
  sub : A -> A -> A;
  mul : A -> A -> A;
  div : A -> A -> A;
  sqrt : A -> A;
  of_nat : nat -> A
}.
Global Arguments zero {A} _.
Global Arguments add {A} _ _ _.
Global Arguments sub {A} _ _ _.
Global Arguments mul {A} _ _ _.
Global Arguments div {A} _ _ _.
Global Arguments sqrt {A} _ _.
Global Arguments of_nat {A} _ _.

(** The arithmetic of the code, on [float64]. *)
Definition binary64 : arith float :=
  {| zero := 0%float;
     add := PrimFloat.add;
     sub := PrimFloat.sub;
     mul := PrimFloat.mul;
     div := PrimFloat.div;
     sqrt := PrimFloat.sqrt;
     of_nat := fun n => PrimFloat.of_uint63 (Uint63.of_Z (Z.of_nat n)) |}.

(** The arithmetic without rounding, on the real numbers. *)
Definition real : arith R :=
  {| zero := 0%R;
     add := Rplus;
     sub := Rminus;
     mul := Rmult;
     div := Rdiv;
     sqrt := R_sqrt.sqrt;
     of_nat := INR |}.

Section WithArith.
Context {A : Type} (ar : arith A).

(** [np.mean] of a one-dimensional array. *)
Definition mean (xs : list A) : A :=
  div ar (fold_left (add ar) xs (zero ar)) (of_nat ar (length xs)).

(** [np.std] of a one-dimensional array: the population standard
    deviation. *)
Definition deviation (xs : list A) : A :=
  sqrt ar (mean (map (fun v => mul ar (sub ar v (mean xs)) (sub ar v (mean xs))) xs)).

(** The values of channel [c] over all epochs and samples, and the values
    of the feature at ([c], [t]) over all epochs. *)
Definition channel_values (x : list (list (list A))) (c : nat) : list A :=
  concat (omap (fun ep => ep !! c) x).

Definition feature_values (x : list (list (list A))) (c t : nat) : list A :=
  omap (fun ep => row ← ep !! c; row !! t) x.

(** A statistic over the axes [ax], with [keepdims=True]. *)
Definition statistic (f : list A -> A) (ax : axes) (x : list (list (list A)))
  : list (list (list A)) :=
  let chans := seq 0 (length (hd [] x)) in
  let times := seq 0 (length (hd [] (hd [] x))) in
  match ax with
  | Axes02 => [map (fun c => [f (channel_values x c)]) chans]
  | Axis0 => [map (fun c => map (fun t => f (feature_values x c t)) times) chans]
  end.

(** [(x - m) / sd], with the stretching of the in-place operations. *)
Definition normalized (x m sd : list (list (list A))) : result (list (list (list A))) :=
  d ← elementwise (sub ar) x m; elementwise (div ar) d sd.

(** The contents of the array that [fit_transform] returns for an input
    with the contents [x], on a scaler whose axes are [ax]: [x] normalised
    by its own mean and deviation over these axes. *)
Definition fit_transform_values (ax : axes) (x : list (list (list A)))
  : result (list (list (list A))) :=
  normalized x (statistic mean ax x) (statistic deviation ax x).

End WithArith.

End Exact.

(** ** Concrete inputs *)

Module Examples.
Import Scaler Model.
Local Open Scope list_scope.

(** A scaler fitted in channel mode on a heap of three arrays: the input
    (two epochs, one channel, three samples), the mean and the deviation. *)
Definition ex_x : tensor :=
  [[[1%float; 2%float; 3%float]]; [[3%float; 4%float; 5%float]]].
Definition ex_mean : tensor := [[[3%float]]].
Definition ex_std : tensor := [[[2%float]]].
Definition ex_heap : heap := [ex_x; ex_mean; ex_std].
Definition ex_scaler : ChannelScaler :=
  {| channel_mean_ := Some 1%nat; channel_std_ := Some 2%nat;
     norm_method := "channel"; norm_axis := Some Axes02 |}.

(** Two epochs of two channels and three samples, with statistics of the
    extents that channel mode gives them, and a scaler holding these. *)
Definition ex_x2 : tensor :=
  [[[1%float; 2%float; 3%float]; [10%float; 20%float; 30%float]];
   [[3%float; 4%float; 5%float]; [30%float; 40%float; 50%float]]].
Definition ex_mean2 : tensor := [[[3%float]; [30%float]]].
Definition ex_std2 : tensor := [[[2%float]; [20%float]]].
Definition ex_heap2 : heap := [ex_x2; ex_mean2; ex_std2].

(** Two epochs of one channel that are equal, and a scaler in dim mode. *)
Definition ex_constant : tensor := [[[1%float; 2%float]]; [[1%float; 2%float]]].
Definition ex_dim_scaler : ChannelScaler :=
  {| channel_mean_ := None; channel_std_ := None;
     norm_method := "dim"; norm_axis := Some Axis0 |}.

(** Two epochs of one channel and two samples, over the reals. *)
Definition ex_real : list (list (list R)) := [[[1%R; 3%R]]; [[5%R; 7%R]]].

Definition here : string := "/repo/Offline".
Definition session : string := "2020-01-01-00-00-00".
Definition no_kwargs : kwargs := {| kw_C := None; kw_n_components := None |}.

(** A session directory without files, and one array: the caller's
    [[3, 1, 2]]. *)
Definition fresh_world : @world Reference.sklearn :=
  {| mem := [[3; 1; 2]];
     disk := <["/repo/Offline/../data/S1/2020-01-01-00-00-00" :=
                 @Directory Reference.sklearn]> ∅ |}.

Definition ex_new : @t Reference.sklearn :=
  @Build_t Reference.sklearn "/repo/Offline/../data/S1" session "train"
    (PyDict ∅)
    (3, 1%float, None) (None).

Definition ex_X : tensor := [[[1%float; 2%float]]; [[3%float; 4%float]]].
Definition ex_y : list Z := [0; 1].

Definition ex_fitted : @t Reference.sklearn :=
  @Build_t Reference.sklearn "/repo/Offline/../data/S1" session "train"
    (PyDict ∅)
    (3, 1%float, Some 2%float) (None).

Definition ex_selected : @t Reference.sklearn :=
  @Build_t Reference.sklearn "/repo/Offline/../data/S1" session "train"
    (PyDict (<[ind_ch_scores := 0%nat]> ∅))
    (3, 1%float, Some 2%float) (Some 0%nat).

(** A session on disk, as [dump] leaves it, and the caller's array. *)
Definition stored_world : @world Reference.sklearn :=
  {| mem := [[3; 1; 2]];
     disk := <[path_join "/repo/Offline/../data/S1" session "model.pkl" :=
                 @Pickle Reference.sklearn (3, 1%float, Some 2%float)]>
             (<[path_join "/repo/Offline/../data/S1" session "coef.npz" :=
                  NpzArchive (<[ind_ch_scores := [0; 5]]> ∅)]> ∅) |}.

Definition ex_loaded : @t Reference.sklearn :=
  @Build_t Reference.sklearn "/repo/Offline/../data/S1" session "test"
    (NpzFile (<[ind_ch_scores := [0; 5]]> ∅))
    (3, 1%float, Some 2%float) (Some 1%nat).

Definition meg_cfg : config :=
  {| subjname := "S1"; rec_type := "meg";
     off_start := (-1 # 5)%Q; off_end := (4 # 5)%Q; time_window := (0 # 1, 3 # 5)%Q;
     downsamp := 5; samplerate := 10 |}.

(** Two channels of twenty samples. *)
Definition ex_raw : list (list float) :=
  [map Reference.of_nat (seq 0 20); map Reference.of_nat (seq 100 20)].

(** Four channels of one sample each, as rows and as an array. *)
Definition ex_rows : list ndarray :=
  [Row [0%float]; Row [10%float]; Row [20%float]; Row [30%float]].
Definition ex_chans : ndarray := Stack ex_rows.

(** Two epochs of one channel and five samples. *)
Definition ex_epochs : tensor :=
  [[[0%float; 1%float; 2%float; 3%float; 4%float]];
   [[10%float; 11%float; 12%float; 13%float; 14%float]]].

Definition zero_rate_cfg : config :=
  {| subjname := "S1"; rec_type := "eeg";
     off_start := (-1 # 5)%Q; off_end := (4 # 5)%Q; time_window := (0 # 1, 3 # 5)%Q;
     downsamp := 0; samplerate := 10 |}.

(** A target rate above the native rate. *)
Definition fast_rate_cfg : config :=
  {| subjname := "S1"; rec_type := "eeg";
     off_start := (-1 # 5)%Q; off_end := (4 # 5)%Q; time_window := (0 # 1, 3 # 5)%Q;
     downsamp := 20; samplerate := 10 |}.

End Examples.

(** ** Properties of [traverse] and of arrays *)

Module ArrayFacts.

Section Traverse.
Context {A B : Type} (f : A -> result B).

Lemma traverse_Forall2 xs ys :
  traverse f xs = Ok ys <-> Forall2 (fun x y => f x = Ok y) xs ys.
Proof.
  revert ys. induction xs as [|x xs IH]; intros ys; simpl.
  - split.
    + intros [= <-]. constructor.
    + intros Hf. inversion Hf. done.
  - destruct (f x) as [y|e] eqn:Ef.
    + destruct (traverse f xs) as [zs|e] eqn:Et.
      * split.
        -- intros [= <-]. constructor; [done | by apply IH].
        -- intros Hf. inversion Hf as [|? y' ? zs' Hy Hzs]; subst.
           apply IH in Hzs. congruence.
      * split; [done|].
        intros Hf. inversion Hf as [|? y' ? zs' Hy Hzs]; subst.
        apply IH in Hzs. done.
    + split; [done|].
      intros Hf. inversion Hf as [|? y' ? zs' Hy Hzs]; subst. congruence.
Qed.

Lemma traverse_length xs ys : traverse f xs = Ok ys -> length ys = length xs.
Proof.
  rewrite traverse_Forall2. intros Hf. symmetry. by eapply Forall2_length.
Qed.

Lemma traverse_total xs :
  Forall (fun x => exists y, f x = Ok y) xs -> exists ys, traverse f xs = Ok ys.
Proof.
  induction 1 as [|x xs [y Hy] _ [ys Hys]]; simpl.
  - by exists [].
  - exists (y :: ys). by rewrite Hy, Hys.
Qed.

Lemma traverse_lookup xs ys i y :
  traverse f xs = Ok ys -> ys !! i = Some y ->
  exists x, xs !! i = Some x /\ f x = Ok y.
Proof.
  rewrite traverse_Forall2. intros Hf Hy.
  destruct (Forall2_lookup_r _ _ _ _ _ Hf Hy) as (x & Hx & Hfx). eauto.
Qed.

End Traverse.

Lemma traverse_pure {A B : Type} (g : A -> B) xs :
  traverse (fun x => Ok (g x)) xs = Ok (map g xs).
Proof. induction xs as [|x xs IH]; simpl; [done | by rewrite IH]. Qed.

(** Induction on arrays, with the hypothesis for every member of a stack. *)
Lemma ndarray_induction (P : ndarray -> Prop) :
  (forall xs, P (Row xs)) ->
  (forall ds, Forall P ds -> P (Stack ds)) ->
  forall d, P d.
Proof.
  intros HRow HStack. fix IH 1. intros [xs|ds].
  - apply HRow.
  - apply HStack. induction ds as [|d ds IHds]; constructor.
    + apply IH.
    + exact IHds.
Qed.

Section AlongLast.
Variable f : list float -> result (list float).

Lemma along_last_shape d out :
  (forall x y, f x = Ok y -> length y = length x) ->
  along_last f d = Ok out -> shape_of out = shape_of d.
Proof.
  intros Hlen. revert out.
  induction d as [xs|ds IH] using ndarray_induction; intros out; simpl.
  - destruct (f xs) as [ys|e] eqn:Ef; simpl; [|done].
    intros [= <-]. simpl. by rewrite (Hlen _ _ Ef).
  - destruct (traverse (along_last f) ds) as [rs|e] eqn:Et; simpl; [|done].
    intros [= <-]. simpl. f_equal.
    apply traverse_Forall2 in Et.
    induction Et as [|d r ds rs Hd _ IHt]; [done|].
    inversion IH as [|? ? IHd IHds]; subst.
    simpl. f_equal; [by apply IHd | by apply IHt].
Qed.

Lemma along_last_rows d out :
  along_last f d = Ok out ->
  Forall2 (fun x y => f x = Ok y) (rows d) (rows out).
Proof.
  revert out.
  induction d as [xs|ds IH] using ndarray_induction; intros out; simpl.
  - destruct (f xs) as [ys|e] eqn:Ef; simpl; [|done].
    intros [= <-]. simpl. by constructor.
  - destruct (traverse (along_last f) ds) as [rs|e] eqn:Et; simpl; [|done].
    intros [= <-]. simpl.
    apply traverse_Forall2 in Et.
    induction Et as [|d r ds rs Hd _ IHt]; [constructor|].
    inversion IH as [|? ? IHd IHds]; subst.
    simpl. apply Forall2_app; [by apply IHd | by apply IHt].
Qed.

Lemma along_last_total d :
  Forall (fun x => exists y, f x = Ok y) (rows d) ->
  exists out, along_last f d = Ok out.
Proof.
  induction d as [xs|ds IH] using ndarray_induction; simpl.
  - intros Hf. inversion Hf as [|? ? [y Hy] _]; subst.
    exists (Row y). by rewrite Hy.
  - intros Hf.
    assert (exists rs, traverse (along_last f) ds = Ok rs) as [rs Hrs].
    { apply traverse_total.
      induction IH as [|d ds Hd _ IHds]; [constructor|].
      simpl in Hf. apply Forall_app in Hf as [Hf1 Hf2].
      constructor; [by apply Hd | by apply IHds]. }
    exists (Stack rs). by rewrite Hrs.
Qed.

End AlongLast.

End ArrayFacts.

(** ** Properties of the filter stage *)

Module FeatExtractorFacts.
Import FeatExtractor ArrayFacts Reference.

Lemma length_lfilter b z xs : length (lfilter b z xs) = length xs.
Proof.
  revert z. induction xs as [|x xs IH]; intros z; simpl; [done|].
  by rewrite IH.
Qed.

(** The filtering instance keeps the length of its input, as SciPy
    documents of [filtfilt]. *)
Lemma fir_filtfilt_length : @filtfilt_keeps_length scipy.
Proof.
  intros b a x y. simpl. unfold fir_filtfilt.
  destruct (length x <=? 3 * Nat.max (length a) (length b))%nat eqn:E; [done|].
  apply Nat.leb_gt in E. intros [= <-].
  rewrite length_take, length_drop, length_rev, length_lfilter, length_rev,
    length_lfilter.
  unfold odd_ext.
  rewrite !length_app, !length_map, length_rev, !length_take, !length_drop,
    length_rev.
  lia.
Qed.

Example filtering_a_matrix :
  shape_of <$> @call scipy
    {| _band_erp := [2%float]; sfreq := 5;
       filter_erp := ([0.5%float; 0.5%float], [1%float]) |}
    (Stack [Row (repeat 1%float 8); Row (repeat 3%float 8)])
  = Ok (SStack [SRow 8; SRow 8]).
Proof. vm_compute. reflexivity. Qed.

Example filtering_a_short_row :
  @call scipy
    {| _band_erp := [2%float]; sfreq := 5;
       filter_erp := ([0.5%float; 0.5%float], [1%float]) |}
    (Row (repeat 1%float 6))
  = Raise (ValueError "The length of the input vector x must be greater than padlen").
Proof. vm_compute. reflexivity. Qed.

(** C8. Constructing a [FeatExtractor] without the band parameter fails at
    once with the assertion error, whatever the other arguments; every
    construction that returns an extractor was given a band, which the
    extractor stores. *)
Theorem band_required `{SciPy} (sfreq0 : Z) (n : option Z) :
  init sfreq0 None n = Raise AssertionError /\
  forall band_erp fe,
    init sfreq0 band_erp n = Ok fe ->
    exists band, band_erp = Some band /\ _band_erp fe = band.
Proof.
  split; [done|].
  intros [band|] fe; simpl; [|done].
  intros Hinit. exists band. split; [done|].
  destruct (Nat.eqb (length band) 1);
    match type of Hinit with
    | context [firwin ?a ?b ?c ?d] => destruct (firwin a b c d)
    end; simpl in Hinit; by inversion Hinit.
Qed.

(** C3. For a sampling frequency [sfreq] (a non-negative integer), the
    constructor asks for an FIR design of [order + 1] taps, where the order
    is [floor(sfreq / 5)] when none is given and the given one otherwise; a
    band of one value is designed with [pass_zero=True] (low-pass) and a
    band of two values with [pass_zero=False] (band-pass). Applying an
    extractor runs [filtfilt] on every slice along the trailing axis: the
    call returns exactly when [filtfilt] returns on every slice, and the
    output then has the shape of the input ([filtfilt] keeping the length
    of what it filters). *)
Theorem feat_extractor_design `{SciPy} (sfreq0 : Z) (band : list float) :
  0 <= sfreq0 ->
  filtfilt_keeps_length ->
  (length band = 1%nat ->
   forall n : option Z,
     init sfreq0 (Some band) n =
     (fun b => {| _band_erp := band; sfreq := sfreq0; filter_erp := (b, [1%float]) |})
       <$> firwin (default (sfreq0 / 5) n + 1) band sfreq0 true) /\
  (length band = 2%nat ->
   forall n : option Z,
     init sfreq0 (Some band) n =
     (fun b => {| _band_erp := band; sfreq := sfreq0; filter_erp := (b, [1%float]) |})
       <$> firwin (default (sfreq0 / 5) n + 1) band sfreq0 false) /\
  forall (fe : t) (data : ndarray),
    let filter := filtfilt (fst (filter_erp fe)) (snd (filter_erp fe)) in
    (forall out, call fe data = Ok out ->
       shape_of out = shape_of data /\
       Forall2 (fun x y => filter x = Ok y) (rows data) (rows out)) /\
    (Forall (fun x => exists y, filter x = Ok y) (rows data) ->
     exists out, call fe data = Ok out).
Proof.
  intros Hsf Hlen.
  assert (Z.quot sfreq0 5 = sfreq0 / 5) as Hq by (apply Z.quot_div_nonneg; lia).
  split; [|split].
  - intros Hb n. unfold init. rewrite Hb, Hq. simpl.
    destruct n as [n|]; simpl; by destruct (firwin _ _ _ _).
  - intros Hb n. unfold init. rewrite Hb, Hq. simpl.
    destruct n as [n|]; simpl; by destruct (firwin _ _ _ _).
  - intros fe data filter. split.
    + intros out Hcall. split.
      * eapply along_last_shape; [|exact Hcall]. apply Hlen.
      * by apply along_last_rows.
    + apply along_last_total.
Qed.

Lemma feat_extractor_design_witness :
  @init scipy 10 (Some [2%float]) None =
    Ok {| _band_erp := [2%float]; sfreq := 10;
          filter_erp := (repeat (1 / 3)%float 3, [1%float]) |} /\
  forall (fe : t) (data out : ndarray),
    @call scipy fe data = Ok out -> shape_of out = shape_of data.
Proof.
  destruct (@feat_extractor_design scipy 10 [2%float]) as (Hlow & _ & Hcall).
  - lia.
  - exact fir_filtfilt_length.
  - split.
    + exact (Hlow eq_refl None).
    + intros fe data out Hout. exact (proj1 (proj1 (Hcall fe data) out Hout)).
Defined.

Example band_pass_request :
  @init scipy 10 (Some [1%float; 4%float]) (Some 4) =
  (fun b => {| _band_erp := [1%float; 4%float]; sfreq := 10;
               filter_erp := (b, [1%float]) |})
    <$> @firwin scipy 5 [1%float; 4%float] 10 false.
Proof. reflexivity. Qed.

End FeatExtractorFacts.

(** ** Properties of the constructor of the normaliser *)

Module ScalerInitFacts.
Import Scaler.

Lemma N_of_ascii_inj c d : N_of_ascii c = N_of_ascii d -> c = d.
Proof.
  intros H. rewrite <- (ascii_N_embedding c), <- (ascii_N_embedding d).
  now rewrite H.
Qed.

Lemma N_of_ascii_small c : (N_of_ascii c < 256)%N.
Proof. apply N_ascii_bounded. Qed.

Lemma lower_char_code c :
  N_of_ascii (lower_char c) =
  (if ((65 <=? N_of_ascii c) && (N_of_ascii c <=? 90))%N
   then N_of_ascii c + 32 else N_of_ascii c)%N.
Proof.
  unfold lower_char.
  destruct ((65 <=? N_of_ascii c) && (N_of_ascii c <=? 90))%N eqn:E; [|done].
  apply andb_prop in E as [E1 E2].
  apply N.leb_le in E1, E2.
  apply N_ascii_embedding. lia.
Qed.

(** Lower-casing identifies exactly the characters that are the same letter. *)
Lemma lower_char_same c d :
  lower_char c = lower_char d <-> same_letter c d.
Proof.
  pose proof (lower_char_code c) as Hc.
  pose proof (lower_char_code d) as Hd.
  pose proof (N_of_ascii_small c). pose proof (N_of_ascii_small d).
  assert (lower_char c = lower_char d <->
          N_of_ascii (lower_char c) = N_of_ascii (lower_char d)) as ->.
  { split; [by intros -> | apply N_of_ascii_inj]. }
  assert (c = d <-> N_of_ascii c = N_of_ascii d) as Hcd.
  { split; [by intros -> | apply N_of_ascii_inj]. }
  unfold same_letter, case_pair. rewrite Hcd, Hc, Hd.
  destruct (N.leb_spec 65 (N_of_ascii c)), (N.leb_spec (N_of_ascii c) 90),
    (N.leb_spec 65 (N_of_ascii d)), (N.leb_spec (N_of_ascii d) 90);
    simpl; lia.
Qed.

Lemma lower_caseless s t : lower s = lower t <-> caseless s t.
Proof.
  revert t. induction s as [|c s IH]; intros [|d t]; simpl; try done.
  rewrite <- IH, <- lower_char_same. split.
  - intros [= ? ?]. done.
  - intros [-> ->]. done.
Qed.

Lemma caseless_channel mode : caseless mode "channel" <-> lower mode = "channel".
Proof. by rewrite <- lower_caseless. Qed.

Lemma caseless_dim mode : caseless mode "dim" <-> lower mode = "dim".
Proof. by rewrite <- lower_caseless. Qed.

Example init_mixed_case :
  init "ChAnNeL" =
  Ok {| channel_mean_ := None; channel_std_ := None;
        norm_method := "channel"; norm_axis := Some Axes02 |}.
Proof. reflexivity. Qed.

Example init_upper_dim :
  init "DIM" =
  Ok {| channel_mean_ := None; channel_std_ := None;
        norm_method := "dim"; norm_axis := Some Axis0 |}.
Proof. reflexivity. Qed.

Example init_bogus :
  init "bogus" = Raise (KeyError "Unsupported normalization method").
Proof. reflexivity. Qed.

(** C6. The constructor of [ChannelScaler] accepts exactly the mode strings
    that are ["channel"] or ["dim"] up to the case of their letters: such a
    string yields the scaler with the lower-cased mode, its axes and no
    statistics yet; every other string makes the constructor itself raise
    the invalid-configuration error [KeyError], so that no scaler object
    exists on which [fit] could be called. *)
Theorem init_mode_check (mode : string) :
  (caseless mode "channel" ->
   init mode = Ok {| channel_mean_ := None; channel_std_ := None;
                     norm_method := "channel"; norm_axis := Some Axes02 |}) /\
  (caseless mode "dim" ->
   init mode = Ok {| channel_mean_ := None; channel_std_ := None;
                     norm_method := "dim"; norm_axis := Some Axis0 |}) /\
  (~ caseless mode "channel" -> ~ caseless mode "dim" ->
   init mode = Raise (KeyError "Unsupported normalization method") /\
   forall s : ChannelScaler, init mode <> Ok s).
Proof.
  rewrite caseless_channel, caseless_dim. unfold init.
  split; [|split].
  - intros ->. reflexivity.
  - intros ->. reflexivity.
  - intros Hc Hd.
    assert (str_in (lower mode) ["channel"; "dim"] = false) as ->.
    { unfold str_in. simpl. rewrite orb_false_r.
      apply orb_false_intro; apply String.eqb_neq; done. }
    simpl. split; [done | intros s; discriminate].
Qed.

End ScalerInitFacts.

(** ** Properties of [transform] *)

Module ScalerFacts.
Import Scaler ArrayFacts Examples.
Local Open Scope list_scope.

Local Abbreviation tensor_of A := (list (list (list A))) (only parsing).

Lemma pick_lookup {A : Type} (ms : list A) i :
  length ms <> 1%nat -> pick ms i = ms !! i.
Proof. destruct ms as [|m [|m' ms]]; simpl; done. Qed.

(** One axis of an in-place operation, entry by entry. *)
Lemma bcast_lookup {A B : Type} (g : A -> B -> result A) xs ms ys :
  bcast g xs ms = Ok ys ->
  length ys = length xs /\
  forall i y, ys !! i = Some y <->
              exists x m, xs !! i = Some x /\ pick ms i = Some m /\ g x m = Ok y.
Proof.
  intros Hb.
  assert ((exists m, ms = [m]) \/ length ms <> 1%nat) as [[m ->]|Hn].
  { destruct ms as [|m [|m' ms]]; simpl; eauto. }
  - simpl in Hb. split; [by eapply traverse_length|].
    apply traverse_Forall2 in Hb. intros i y. split.
    + intros Hy. destruct (Forall2_lookup_r _ _ _ _ _ Hb Hy) as (x & Hx & Hg).
      eauto.
    + intros (x & m' & Hx & [= <-] & Hg).
      destruct (Forall2_lookup_l _ _ _ _ _ Hb Hx) as (y' & Hy' & Hg').
      congruence.
  - assert (bcast g xs ms =
            if Nat.eqb (length ms) (length xs)
            then traverse (fun p => g (fst p) (snd p)) (zip xs ms)
            else Raise (ValueError "operands could not be broadcast together"))
      as Hunf by (destruct ms as [|m [|m' ms]]; simpl in *; done).
    rewrite Hunf in Hb.
    destruct (Nat.eqb (length ms) (length xs)) eqn:El; [|done].
    apply Nat.eqb_eq in El.
    pose proof (traverse_length _ _ _ Hb) as Hl.
    rewrite length_zip in Hl.
    split; [lia|].
    apply traverse_Forall2 in Hb. intros i y.
    rewrite (pick_lookup ms i Hn). split.
    + intros Hy. destruct (Forall2_lookup_r _ _ _ _ _ Hb Hy) as ([x m] & Hx & Hg).
      apply lookup_zip_with_Some in Hx as (x' & m' & [= <- <-] & Hx & Hm).
      eauto.
    + intros (x & m & Hx & Hm & Hg).
      assert (zip xs ms !! i = Some (x, m)) as Hz.
      { apply lookup_zip_with_Some. eauto. }
      destruct (Forall2_lookup_l _ _ _ _ _ Hb Hz) as (y' & Hy' & Hg').
      simpl in Hg'. congruence.
Qed.

(** An in-place operation on tensors, entry by entry. *)
Lemma elementwise_lookup {A : Type} (op : A -> A -> A) (x m y : tensor_of A) :
  elementwise op x m = Ok y ->
  forall e c t v,
    at3 y e c t = Some v <->
    exists xv mv, at3 x e c t = Some xv /\ pick3 m e c t = Some mv /\ v = op xv mv.
Proof.
  unfold elementwise. intros Hy e c t v.
  apply bcast_lookup in Hy as [Hl1 H1].
  unfold at3, pick3. split.
  - intros Hv.
    destruct (y !! e) as [ye|] eqn:Eye; simpl in Hv; [|done].
    destruct (ye !! c) as [yc|] eqn:Eyc; simpl in Hv; [|done].
    apply H1 in Eye as (xe & me & -> & -> & H2). simpl.
    apply bcast_lookup in H2 as [_ H2].
    apply H2 in Eyc as (xc & mc & -> & -> & H3). simpl.
    apply bcast_lookup in H3 as [_ H3].
    apply H3 in Hv as (xv & mv & -> & -> & [= <-]). eauto.
  - intros (xv & mv & Hx & Hm & ->).
    destruct (x !! e) as [xe|] eqn:Exe; simpl in Hx; [|done].
    destruct (xe !! c) as [xc|] eqn:Exc; simpl in Hx; [|done].
    destruct (pick m e) as [me|] eqn:Eme; simpl in Hm; [|done].
    destruct (pick me c) as [mc|] eqn:Emc; simpl in Hm; [|done].
    assert (is_Some (y !! e)) as [ye Eye].
    { apply lookup_lt_is_Some. apply lookup_lt_Some in Exe. lia. }
    rewrite Eye. simpl.
    apply H1 in Eye as (xe' & me' & ? & ? & H2). simplify_eq.
    apply bcast_lookup in H2 as [Hl2 H2].
    assert (is_Some (ye !! c)) as [yc Eyc].
    { apply lookup_lt_is_Some. apply lookup_lt_Some in Exc. lia. }
    rewrite Eyc. simpl.
    apply H2 in Eyc as (xc' & mc' & ? & ? & H3). simplify_eq.
    apply bcast_lookup in H3 as [_ H3]. apply H3. eauto.
Qed.

(** The entries of [(X - mean) / std]. *)
Lemma normalized_lookup (x m sd y : tensor) :
  normalized x m sd = Ok y ->
  forall e c t v,
    at3 y e c t = Some v <->
    exists xv mv sv,
      at3 x e c t = Some xv /\ pick3 m e c t = Some mv /\
      pick3 sd e c t = Some sv /\ v = ((xv - mv) / sv)%float.
Proof.
  unfold normalized. intros Hn e c t v.
  destruct (elementwise PrimFloat.sub x m) as [d|] eqn:Ed; simpl in Hn; [|done].
  rewrite (elementwise_lookup _ _ _ _ Hn).
  split.
  - intros (dv & sv & Hd & Hs & ->).
    apply (elementwise_lookup _ _ _ _ Ed) in Hd as (xv & mv & Hx & Hm & ->).
    eauto 10.
  - intros (xv & mv & sv & Hx & Hm & Hs & ->).
    exists (xv - mv)%float, sv. split; [|done].
    apply (elementwise_lookup _ _ _ _ Ed). eauto.
Qed.

(** One axis of an in-place operation keeps the extent of its left
    operand and combines it entry by entry. *)
Lemma bcast_Forall2 {A B : Type} (g : A -> B -> result A) xs ms ys :
  bcast g xs ms = Ok ys -> Forall2 (fun x y => exists m, g x m = Ok y) xs ys.
Proof.
  intros Hb. destruct (bcast_lookup g xs ms ys Hb) as [Hlen Hat].
  apply Forall2_same_length_lookup. split; [done|].
  intros i x y Hx Hy. apply Hat in Hy as (x' & m & Hx' & _ & Hg).
  exists m. congruence.
Qed.

Lemma elementwise_shape {A : Type} (op : A -> A -> A) (x m y : tensor_of A) :
  elementwise op x m = Ok y -> map (map length) y = map (map length) x.
Proof.
  unfold elementwise. intros Hy. apply bcast_Forall2 in Hy.
  induction Hy as [|xe ye x' y' [me He] _ IH]; simpl; [done|].
  rewrite IH. f_equal.
  apply bcast_Forall2 in He. clear -He.
  induction He as [|xc yc xe' ye' [mc Hc] _ IH]; simpl; [done|].
  rewrite IH. f_equal.
  apply bcast_lookup in Hc as [Hlen _]. done.
Qed.

(** *** Operands of the extents that [fit] produces *)

Lemma pick_elem_of {A : Type} (ms : list A) i m : pick ms i = Some m -> m ∈ ms.
Proof.
  destruct ms as [|m0 [|m1 ms]]; simpl; [done| |].
  - intros [= <-]. apply list_elem_of_here.
  - intros Hm. by eapply list_elem_of_lookup_2.
Qed.

Lemma pick_extent {A : Type} (ms : list A) n i :
  length ms = n -> (i < n)%nat -> pick ms i = ms !! i.
Proof.
  intros <- Hi. destruct ms as [|m0 [|m1 ms]]; simpl in *; try done.
  destruct i; [done | lia].
Qed.

Lemma pick_one {A : Type} (ms : list A) i :
  length ms = 1%nat -> pick ms i = ms !! 0%nat.
Proof. destruct ms as [|m0 [|m1 ms]]; simpl; done. Qed.

(** One axis of an in-place operation returns when the right operand has
    extent one or the extent of the left operand, and the operation on the
    entries returns. *)
Lemma bcast_total {A B : Type} (g : A -> B -> result A) xs ms :
  length ms = 1%nat \/ length ms = length xs ->
  (forall i x m, xs !! i = Some x -> pick ms i = Some m -> exists y, g x m = Ok y) ->
  exists ys, bcast g xs ms = Ok ys.
Proof.
  intros Hlen Hg.
  assert ((exists m, ms = [m]) \/ length ms <> 1%nat) as [[m ->]|Hn].
  { destruct ms as [|m [|m' ms]]; simpl; eauto. }
  - simpl. apply traverse_total. apply Forall_lookup. intros i x Hx.
    by apply (Hg i).
  - destruct Hlen as [?|Hlen]; [done|].
    assert (bcast g xs ms =
            if Nat.eqb (length ms) (length xs)
            then traverse (fun p => g (fst p) (snd p)) (zip xs ms)
            else Raise (ValueError "operands could not be broadcast together"))
      as -> by (destruct ms as [|m [|m' ms]]; simpl in *; done).
    rewrite Hlen, Nat.eqb_refl.
    apply traverse_total. apply Forall_lookup. intros i [x m] Hz.
    apply lookup_zip_with_Some in Hz as (x' & m' & [= <- <-] & Hx & Hm).
    simpl. apply (Hg i); [done|]. by rewrite pick_lookup.
Qed.

Lemma has_shape_lengths {A : Type} E C T (x y : tensor_of A) :
  map (map length) y = map (map length) x -> has_shape E C T x -> has_shape E C T y.
Proof.
  intros Hmap [Hlen Hall]. split.
  - apply (f_equal length) in Hmap. rewrite !length_map in Hmap. lia.
  - clear Hlen. revert y Hmap.
    induction Hall as [|ep x' [Hc Ht] _ IH]; intros [|ep' y] Hmap;
      simpl in Hmap; try done.
    injection Hmap as Hep Hrest. constructor; [|by apply IH].
    split.
    + apply (f_equal length) in Hep. rewrite !length_map in Hep. lia.
    + clear -Hep Ht. revert ep' Hep.
      induction Ht as [|row ep Hrow _ IH]; intros [|row' ep'] Hep;
        simpl in Hep; try done.
      injection Hep as Hr Hrest. constructor; [lia | by apply IH].
Qed.

Lemma at3_shape {A : Type} E C T (x : tensor_of A) e c t v :
  has_shape E C T x -> at3 x e c t = Some v -> (e < E /\ c < C /\ t < T)%nat.
Proof.
  intros [Hlen Hall]. unfold at3. intros Hv.
  destruct (x !! e) as [ep|] eqn:Hep; simpl in Hv; [|done].
  destruct (ep !! c) as [row|] eqn:Hrow; simpl in Hv; [|done].
  rewrite Forall_lookup in Hall. destruct (Hall e ep Hep) as [Hc Ht].
  rewrite Forall_lookup in Ht. specialize (Ht c row Hrow).
  apply lookup_lt_Some in Hep, Hrow, Hv. lia.
Qed.

Lemma at3_in_shape {A : Type} E C T (x : tensor_of A) e c t :
  has_shape E C T x -> (e < E)%nat -> (c < C)%nat -> (t < T)%nat ->
  is_Some (at3 x e c t).
Proof.
  intros [Hlen Hall] He Hc Ht. unfold at3.
  assert (is_Some (x !! e)) as [ep Hep] by (apply lookup_lt_is_Some; lia).
  rewrite Forall_lookup in Hall. destruct (Hall e ep Hep) as [HC HT].
  assert (is_Some (ep !! c)) as [row Hrow] by (apply lookup_lt_is_Some; lia).
  rewrite Forall_lookup in HT. specialize (HT c row Hrow).
  rewrite Hep. simpl. rewrite Hrow. simpl. apply lookup_lt_is_Some. lia.
Qed.

(** A statistic is read at epoch zero, at the channel, and at the sample
    or at zero, whatever the entry of the left operand it meets. *)
Lemma stat_pick3 {A : Type} ax C T (m : tensor_of A) e c t :
  stat_shape ax C T m -> (c < C)%nat -> (t < T)%nat ->
  exists mv, at3 m 0 c (stat_time ax t) = Some mv /\ pick3 m e c t = Some mv.
Proof.
  intros Hm Hc Ht.
  assert (exists m0 n, m = [m0] /\ length m0 = C /\
            Forall (fun row => length row = n) m0 /\
            ((n = 1%nat /\ stat_time ax t = 0%nat) \/
             (n = T /\ stat_time ax t = t))) as (m0 & n & -> & Hm0 & Hrows & Hn).
  { destruct ax; destruct Hm as [Hl Hall]; destruct m as [|m0 [|? ?]]; try done;
      inversion Hall as [|? ? [HC HR] _]; subst; eexists m0, _;
      (split; [done|]); (split; [done|]); (split; [exact HR|]); auto. }
  unfold at3, pick3. simpl.
  rewrite (pick_extent m0 C c Hm0 Hc).
  assert (is_Some (m0 !! c)) as [row Hrow] by (apply lookup_lt_is_Some; lia).
  rewrite Hrow. simpl.
  rewrite Forall_lookup in Hrows. specialize (Hrows c row Hrow).
  destruct Hn as [[-> ->]|[-> ->]].
  - rewrite (pick_one row t Hrows).
    assert (is_Some (row !! 0%nat)) as [mv Hmv] by (apply lookup_lt_is_Some; lia).
    exists mv. by rewrite Hmv.
  - rewrite (pick_extent row T t Hrows Ht).
    assert (is_Some (row !! t)) as [mv Hmv] by (apply lookup_lt_is_Some; lia).
    exists mv. by rewrite Hmv.
Qed.

(** An in-place operation whose right operand is a statistic of the left
    operand's extents returns, keeps these extents, and combines every
    entry with the statistic of its channel, or of its channel and
    sample. *)
Lemma elementwise_shaped {A : Type} (op : A -> A -> A) ax E C T (x m : tensor_of A) :
  has_shape E C T x ->
  stat_shape ax C T m ->
  exists y,
    elementwise op x m = Ok y /\
    has_shape E C T y /\
    forall e c t xv,
      at3 x e c t = Some xv ->
      exists mv, at3 m 0 c (stat_time ax t) = Some mv /\ at3 y e c t = Some (op xv mv).
Proof.
  intros Hx Hm.
  assert (exists y, elementwise op x m = Ok y) as [y Hy].
  { assert (exists m0, m = [m0] /\ length m0 = C /\
              Forall (fun row => length row = 1%nat \/ length row = T) m0)
      as (m0 & -> & Hm0 & Hrows).
    { destruct ax; destruct Hm as [Hl Hall]; destruct m as [|m0 [|? ?]]; try done;
        inversion Hall as [|? ? [HC HR] _]; subst; exists m0;
        (split; [done|]); (split; [done|]);
        (eapply Forall_impl; [exact HR|]); simpl; auto. }
    unfold elementwise. apply bcast_total; [by left|].
    intros e ep m0' Hep [= <-].
    destruct Hx as [_ Hall]. rewrite Forall_lookup in Hall.
    destruct (Hall e ep Hep) as [HC HT].
    apply bcast_total; [right; lia|].
    intros c row mrow Hrow Hmrow.
    apply bcast_total; [|eauto].
    apply pick_elem_of in Hmrow. rewrite Forall_forall in Hrows.
    destruct (Hrows _ Hmrow) as [?|Hl]; [by left | right].
    rewrite Forall_lookup in HT. by rewrite (HT c row Hrow). }
  exists y. split; [done|]. split.
  { eapply has_shape_lengths; [|exact Hx]. by eapply elementwise_shape. }
  intros e c t xv Hxv.
  destruct (at3_shape _ _ _ _ _ _ _ _ Hx Hxv) as (He & Hc & Ht).
  destruct (stat_pick3 ax C T m e c t Hm Hc Ht) as (mv & Hat & Hpick).
  exists mv. split; [done|]. apply (elementwise_lookup _ _ _ _ Hy). eauto.
Qed.

(** [(x - m) / sd] in any arithmetic, for statistics of the extents that
    [fit] produces. *)
Lemma exact_normalized_shaped {A : Type} (ar : Exact.arith A) ax E C T
  (x m sd : tensor_of A) :
  has_shape E C T x ->
  stat_shape ax C T m ->
  stat_shape ax C T sd ->
  exists y,
    Exact.normalized ar x m sd = Ok y /\
    has_shape E C T y /\
    forall e c t xv,
      at3 x e c t = Some xv ->
      exists mv sv,
        at3 m 0 c (stat_time ax t) = Some mv /\
        at3 sd 0 c (stat_time ax t) = Some sv /\
        at3 y e c t = Some (Exact.div ar (Exact.sub ar xv mv) sv).
Proof.
  intros Hx Hm Hsd. unfold Exact.normalized.
  destruct (elementwise_shaped (Exact.sub ar) ax E C T x m Hx Hm) as (d & -> & Hd & Hdat).
  destruct (elementwise_shaped (Exact.div ar) ax E C T d sd Hd Hsd) as (y & Hy & Hys & Hyat).
  exists y. split; [done|]. split; [done|].
  intros e c t xv Hxv.
  destruct (Hdat e c t xv Hxv) as (mv & Hmv & Hdv).
  destruct (Hyat e c t _ Hdv) as (sv & Hsv & Hyv).
  eauto.
Qed.

Lemma normalized_shaped ax E C T (x m sd : tensor) :
  has_shape E C T x ->
  stat_shape ax C T m ->
  stat_shape ax C T sd ->
  exists y,
    normalized x m sd = Ok y /\
    has_shape E C T y /\
    forall e c t xv,
      at3 x e c t = Some xv ->
      exists mv sv,
        at3 m 0 c (stat_time ax t) = Some mv /\
        at3 sd 0 c (stat_time ax t) = Some sv /\
        at3 y e c t = Some ((xv - mv) / sv)%float.
Proof. exact (exact_normalized_shaped Exact.binary64 ax E C T x m sd). Qed.

(** The extents and the entries of a statistic with [keepdims=True]. *)
Lemma statistic_shape {A : Type} (f : list A -> A) ax E C T (x : tensor_of A) :
  (0 < E)%nat -> has_shape E C T x -> stat_shape ax C T (Exact.statistic f ax x).
Proof.
  intros HE [Hlen Hall].
  destruct x as [|ep0 x']; simpl in Hlen; [lia|].
  inversion Hall as [|? ? [HC HT] _]; subst. simpl.
  destruct ax; simpl; (split; [done|]); constructor; try done;
    (split; [by rewrite length_map, length_seq|]);
    apply Forall_fmap, Forall_forall; intros c Hc; simpl; [done|].
  rewrite length_map, length_seq.
  destruct ep0 as [|row0 ep0]; simpl in *.
  - by apply elem_of_nil in Hc.
  - by inversion HT.
Qed.

Lemma statistic_entry {A : Type} (f : list A -> A) ax E C T (x : tensor_of A) c t :
  (0 < E)%nat -> has_shape E C T x -> (c < C)%nat -> (t < T)%nat ->
  at3 (Exact.statistic f ax x) 0 c (stat_time ax t) =
  Some (match ax with
        | Axes02 => f (Exact.channel_values x c)
        | Axis0 => f (Exact.feature_values x c t)
        end).
Proof.
  intros HE [Hlen Hall] Hc Ht.
  destruct x as [|ep0 x']; simpl in Hlen; [lia|].
  inversion Hall as [|? ? [HC HT] _]; subst.
  assert (length (hd [] ep0) = T) as Hhd.
  { destruct ep0 as [|row0 ep0]; simpl in *; [lia | by inversion HT]. }
  unfold at3, Exact.statistic. cbn [hd].
  destruct ax; simpl; rewrite list_lookup_fmap, lookup_seq_lt by done; simpl.
  - done.
  - rewrite Hhd, list_lookup_fmap, lookup_seq_lt by done. done.
Qed.

(** The reference reductions keep the reduced axes. *)
Lemma reference_keepdims : @keepdims Reference.numpy.
Proof.
  intros ax E C T x HE Hx. split.
  - exact (statistic_shape Utils.mean ax E C T x HE Hx).
  - exact (statistic_shape Reference.deviation ax E C T x HE Hx).
Qed.

Lemma lookup_snoc {A : Type} (h : list A) (v : A) : (h ++ [v]) !! length h = Some v.
Proof. rewrite lookup_app_r by lia. by rewrite Nat.sub_diag. Qed.

Lemma insert_snoc {A : Type} (h : list A) (v w : A) :
  <[length h := w]> (h ++ [v]) = h ++ [w].
Proof. rewrite insert_app_r_alt by lia. by rewrite Nat.sub_diag. Qed.

Lemma lookup_snoc_old {A : Type} (h : list A) (v w : A) l :
  h !! l = Some w -> (h ++ [v]) !! l = Some w.
Proof. intros Hl. rewrite lookup_app_l; [done | by eapply lookup_lt_Some]. Qed.

(** An in-place operation on the newest array. *)
Lemma inplace_snoc op (h : heap) (x m : tensor) attr l :
  attr = Some l -> h !! l = Some m ->
  inplace op (length h) attr (h ++ [x]) =
  match elementwise op x m with
  | Ok v => (h ++ [v], Ok tt)
  | Raise e => (h ++ [x], Raise e)
  end.
Proof.
  intros -> Hl. unfold inplace, bind, operand, deref, lift, store.
  rewrite lookup_snoc, (lookup_snoc_old _ _ _ _ Hl).
  destruct (elementwise op x m); [by rewrite insert_snoc | done].
Qed.

(** The steps of [transform] on a fitted scaler. *)
Lemma transform_steps (self : ChannelScaler) (X lm ls : loc)
  (x m sd : tensor) (h : heap) :
  channel_mean_ self = Some lm ->
  channel_std_ self = Some ls ->
  h !! X = Some x ->
  h !! lm = Some m ->
  h !! ls = Some sd ->
  transform self X h =
  match elementwise PrimFloat.sub x m with
  | Ok d =>
      match elementwise PrimFloat.div d sd with
      | Ok y => (h ++ [y], Ok (length h))
      | Raise e => (h ++ [d], Raise e)
      end
  | Raise e => (h ++ [x], Raise e)
  end.
Proof.
  intros Hm Hs HX Hlm Hls. unfold transform, bind, alloc, deref. rewrite HX.
  rewrite (inplace_snoc _ _ _ _ _ _ Hm Hlm).
  destruct (elementwise PrimFloat.sub x m) as [d|e]; [|done].
  rewrite (inplace_snoc _ _ _ _ _ _ Hs Hls).
  by destruct (elementwise PrimFloat.div d sd).
Qed.

(** C9. For a fitted scaler (both statistics are arrays of the heap) and
    an input array [X], [transform] leaves every array that existed before
    the call as it was, the input and the two stored statistics among them,
    and creates one new array for its result. When [(X - mean) / std] is
    defined (the statistics stretch to the shape of [X]), the new array
    holds it and is returned; its entries are [(x - mean) / std] entry by
    entry. When it is not, [transform] raises that error. For statistics of
    the extents that [fit] produces for an input of the extents of [X]
    ([(1, C, 1)] in channel mode, [(1, C, T)] in dim mode) it is defined:
    [transform] returns an array of the extents of [X] whose entry at
    (epoch, channel, sample) is the entry of [X] minus the mean of the
    channel, or of the channel and sample, divided by the deviation there.
    The scaler's attributes are not assigned. *)
Theorem transform_on_copy (self : ChannelScaler) (X lm ls : loc)
  (x m sd : tensor) (h : heap) :
  channel_mean_ self = Some lm ->
  channel_std_ self = Some ls ->
  h !! X = Some x ->
  h !! lm = Some m ->
  h !! ls = Some sd ->
  (forall l v, h !! l = Some v -> fst (transform self X h) !! l = Some v) /\
  fst (transform self X h) !! X = Some x /\
  fst (transform self X h) !! lm = Some m /\
  fst (transform self X h) !! ls = Some sd /\
  match normalized x m sd with
  | Ok y =>
      transform self X h = (h ++ [y], Ok (length h)) /\
      forall e c t v,
        at3 y e c t = Some v <->
        exists xv mv sv,
          at3 x e c t = Some xv /\ pick3 m e c t = Some mv /\
          pick3 sd e c t = Some sv /\ v = ((xv - mv) / sv)%float
  | Raise e => snd (transform self X h) = Raise e
  end /\
  (forall (ax : axes) (E C T : nat),
     has_shape E C T x ->
     stat_shape ax C T m ->
     stat_shape ax C T sd ->
     exists y,
       transform self X h = (h ++ [y], Ok (length h)) /\
       has_shape E C T y /\
       forall e c t xv,
         at3 x e c t = Some xv ->
         exists mv sv,
           at3 m 0 c (stat_time ax t) = Some mv /\
           at3 sd 0 c (stat_time ax t) = Some sv /\
           at3 y e c t = Some ((xv - mv) / sv)%float).
Proof.
  intros Hm Hs HX Hlm Hls.
  pose proof (transform_steps self X lm ls x m sd h Hm Hs HX Hlm Hls) as Ht.
  assert (exists w, fst (transform self X h) = h ++ [w] /\
            match normalized x m sd with
            | Ok y => transform self X h = (h ++ [y], Ok (length h))
            | Raise e => snd (transform self X h) = Raise e
            end) as (w & Hw & Hres).
  { rewrite Ht. unfold normalized.
    destruct (elementwise PrimFloat.sub x m) as [d|e]; simpl; [|eauto].
    destruct (elementwise PrimFloat.div d sd) as [y|e]; simpl; eauto. }
  rewrite Hw.
  split; [|split; [|split; [|split; [|split]]]]; try by apply lookup_snoc_old.
  - intros l v. apply lookup_snoc_old.
  - destruct (normalized x m sd) as [y|e] eqn:En; [|done].
    split; [done|]. by apply normalized_lookup.
  - intros ax E C T Hx Hms Hsds.
    destruct (normalized_shaped ax E C T x m sd Hx Hms Hsds) as (y & Hy & Hys & Hat).
    rewrite Hy in Hres. eauto.
Qed.

(** Two epochs of two channels, with the statistics of channel mode. *)
Lemma transform_on_copy_witness :
  fst (transform ex_scaler 0%nat ex_heap2) !! 0%nat = Some ex_x2 /\
  exists y,
    transform ex_scaler 0%nat ex_heap2 = (ex_heap2 ++ [y], Ok 3%nat) /\
    has_shape 2 2 3 y /\
    at3 y 1 1 2 = Some 1%float /\
    at3 y 0 1 0 = Some (-1)%float.
Proof.
  pose proof (transform_on_copy ex_scaler 0%nat 1%nat 2%nat ex_x2 ex_mean2 ex_std2
                ex_heap2 eq_refl eq_refl eq_refl eq_refl eq_refl)
    as (_ & HX & _ & _ & _ & Hshaped).
  split; [exact HX|].
  destruct (Hshaped Axes02 2%nat 2%nat 3%nat) as (y & Hy & Hys & Hat).
  - split; [reflexivity | repeat constructor].
  - split; [reflexivity | repeat constructor].
  - split; [reflexivity | repeat constructor].
  - exists y. split; [exact Hy|]. split; [exact Hys|]. split.
    + destruct (Hat 1%nat 1%nat 2%nat 50%float eq_refl) as (mv & sv & Hmv & Hsv & ->).
      injection Hmv as <-. injection Hsv as <-. reflexivity.
    + destruct (Hat 0%nat 1%nat 0%nat 10%float eq_refl) as (mv & sv & Hmv & Hsv & ->).
      injection Hmv as <-. injection Hsv as <-. reflexivity.
Defined.

(** The example of one channel, and its result. *)
Example transform_one_channel :
  transform ex_scaler 0%nat ex_heap =
  (ex_heap ++ [[[[(-1)%float; (-0.5)%float; 0%float]];
                [[0%float; 0.5%float; 1%float]]]],
   Ok 3%nat).
Proof. reflexivity. Qed.

(** Statistics of another shape do not stretch: the call raises, and the
    input is as before. *)
Example transform_shape_mismatch :
  let r := transform ex_scaler 0%nat [ex_x; [[[3%float]; [1%float]]]; ex_std] in
  snd r = Raise (ValueError "operands could not be broadcast together") /\
  fst r !! 0%nat = Some ex_x.
Proof. vm_compute. done. Qed.

End ScalerFacts.

(** ** The normaliser in exact arithmetic *)

Module ExactFacts.
Import Scaler ArrayFacts ScalerFacts Examples.
Local Open Scope list_scope.

Local Abbreviation tensor_of A := (list (list (list A))) (only parsing).
Local Abbreviation Rmean := (Exact.mean Exact.real) (only parsing).
Local Abbreviation Rdeviation := (Exact.deviation Exact.real) (only parsing).

(** A row that holds [f] of every entry of another. *)
Lemma row_map {A : Type} (f : A -> A) (row row' : list A) :
  length row' = length row ->
  (forall t xv, row !! t = Some xv -> row' !! t = Some (f xv)) ->
  row' = map f row.
Proof.
  intros Hlen Hat. apply list_eq. intros t. rewrite list_lookup_fmap.
  destruct (row !! t) as [xv|] eqn:Hx; simpl.
  - by apply Hat.
  - apply lookup_ge_None. apply lookup_ge_None in Hx. lia.
Qed.

(** The values of a channel, and of a feature, of an array that holds [f]
    of every entry of another. *)
Lemma channel_values_map {A : Type} (f : A -> A) E C T (x y : tensor_of A) c :
  has_shape E C T x -> has_shape E C T y -> (c < C)%nat ->
  (forall e t xv, at3 x e c t = Some xv -> at3 y e c t = Some (f xv)) ->
  Exact.channel_values y c = map f (Exact.channel_values x c).
Proof.
  intros [Hlx Hx] [Hly Hy] Hc Hat. unfold Exact.channel_values.
  assert (length y = length x) as Hlen by lia. clear Hlx Hly.
  revert y Hy Hlen Hat.
  induction Hx as [|ep x' [HC HT] _ IH]; intros [|ep' y'] Hy Hlen Hat;
    simpl in Hlen; try done.
  apply Forall_cons in Hy as [[HC' HT'] Hy'].
  assert (is_Some (ep !! c)) as [row Hrow] by (apply lookup_lt_is_Some; lia).
  assert (is_Some (ep' !! c)) as [row' Hrow'] by (apply lookup_lt_is_Some; lia).
  simpl. rewrite Hrow, Hrow'. simpl. rewrite map_app. f_equal.
  - apply row_map.
    + rewrite Forall_lookup in HT, HT'.
      by rewrite (HT _ _ Hrow), (HT' _ _ Hrow').
    + intros t xv Hxv. specialize (Hat 0%nat t xv). unfold at3 in Hat.
      simpl in Hat. rewrite Hrow, Hrow' in Hat. by apply Hat.
  - apply IH; [done | lia |]. intros e t xv Hxv. apply (Hat (S e) t xv Hxv).
Qed.

Lemma feature_values_map {A : Type} (f : A -> A) E C T (x y : tensor_of A) c t :
  has_shape E C T x -> has_shape E C T y -> (c < C)%nat -> (t < T)%nat ->
  (forall e xv, at3 x e c t = Some xv -> at3 y e c t = Some (f xv)) ->
  Exact.feature_values y c t = map f (Exact.feature_values x c t).
Proof.
  intros [Hlx Hx] [Hly Hy] Hc Ht Hat. unfold Exact.feature_values.
  assert (length y = length x) as Hlen by lia. clear Hlx Hly.
  revert y Hy Hlen Hat.
  induction Hx as [|ep x' [HC HT] _ IH]; intros [|ep' y'] Hy Hlen Hat;
    simpl in Hlen; try done.
  apply Forall_cons in Hy as [[HC' HT'] Hy'].
  assert (is_Some (ep !! c)) as [row Hrow] by (apply lookup_lt_is_Some; lia).
  rewrite Forall_lookup in HT. specialize (HT c row Hrow).
  assert (is_Some (row !! t)) as [xv Hxv] by (apply lookup_lt_is_Some; lia).
  pose proof (Hat 0%nat xv) as H0. unfold at3 in H0. simpl in H0.
  rewrite Hrow in H0. simpl in H0. specialize (H0 Hxv).
  simpl. rewrite Hrow. simpl. rewrite Hxv, H0. simpl. f_equal.
  apply IH; [done | lia |]. intros e xv' Hxv'. apply (Hat (S e) xv' Hxv').
Qed.

(** *** Sums, means and deviations over the reals *)

Section Reals.
Local Open Scope R_scope.

Lemma Rsum_acc (l : list R) (a : R) :
  fold_left Rplus l a = a + fold_left Rplus l 0.
Proof.
  revert a. induction l as [|x l IH]; intros a; simpl; [lra|].
  rewrite (IH (a + x)), (IH (0 + x)). lra.
Qed.

Lemma Rsum_map_scaled (g : R -> R) (k : R) (l : list R) :
  fold_left Rplus (map (fun v => g v * k) l) 0 = fold_left Rplus (map g l) 0 * k.
Proof.
  induction l as [|x l IH]; simpl; [lra|].
  rewrite Rsum_acc, IH, (Rsum_acc _ (0 + g x)). lra.
Qed.

Lemma Rsum_map_shift (mu : R) (l : list R) :
  fold_left Rplus (map (fun v => v - mu) l) 0 =
  fold_left Rplus l 0 - INR (length l) * mu.
Proof.
  induction l as [|x l IH]; [simpl; lra|].
  cbn [map fold_left length]. rewrite Rsum_acc, IH, (Rsum_acc l (0 + x)), S_INR.
  lra.
Qed.

Lemma Rmean_unfold (l : list R) :
  Rmean l = fold_left Rplus l 0 / INR (length l).
Proof. reflexivity. Qed.

Lemma Rdeviation_unfold (l : list R) :
  Rdeviation l =
  sqrt (Rmean (map (fun v => (v - Rmean l) * (v - Rmean l)) l)).
Proof. reflexivity. Qed.

Lemma Rdeviation_nil : Rdeviation [] = 0.
Proof.
  rewrite Rdeviation_unfold, Rmean_unfold. simpl.
  unfold Rdiv. rewrite Rmult_0_l. apply sqrt_0.
Qed.

(** Values from which their mean is subtracted, divided by anything, have
    the mean zero. *)
Lemma standardised_mean (l : list R) (sigma : R) :
  l <> [] ->
  Rmean (map (fun v => (v - Rmean l) / sigma) l) = 0.
Proof.
  intros Hne. set (mu := Rmean l).
  assert (INR (length l) <> 0) as Hn.
  { apply not_0_INR. destruct l; simpl; congruence. }
  rewrite Rmean_unfold, length_map.
  change (map (fun v => (v - mu) / sigma) l)
    with (map (fun v => (fun v => v - mu) v * / sigma) l).
  rewrite (Rsum_map_scaled (fun v => v - mu) (/ sigma)), Rsum_map_shift.
  assert (fold_left Rplus l 0 - INR (length l) * mu = 0) as ->.
  { unfold mu. rewrite Rmean_unfold. field. exact Hn. }
  unfold Rdiv. ring.
Qed.

(** Divided by their deviation, when it is not zero, they have the
    deviation one. *)
Lemma standardised_deviation (l : list R) :
  Rdeviation l <> 0 ->
  Rdeviation (map (fun v => (v - Rmean l) / Rdeviation l) l) = 1.
Proof.
  intros Hdev.
  assert (l <> []) as Hne by (intros ->; apply Hdev, Rdeviation_nil).
  assert (INR (length l) <> 0) as Hn.
  { apply not_0_INR. destruct l; simpl; congruence. }
  set (mu := Rmean l) in *. set (sigma := Rdeviation l) in *.
  set (V := Rmean (map (fun v => (v - mu) * (v - mu)) l)).
  assert (sigma = sqrt V) as Hsigma by reflexivity.
  assert (sigma * sigma = V) as Hsq.
  { destruct (Rle_or_lt V 0) as [Hle|Hlt].
    - exfalso. apply Hdev. rewrite Hsigma. by apply sqrt_neg_0.
    - rewrite Hsigma. apply sqrt_sqrt. lra. }
  pose proof (standardised_mean l sigma Hne) as Hzero. fold mu in Hzero.
  rewrite Rdeviation_unfold, Hzero, map_map.
  rewrite Rmean_unfold, !length_map.
  rewrite (map_ext _ (fun v => (fun v => (v - mu) * (v - mu)) v * (/ sigma * / sigma)))
    by (intros v; unfold Rdiv; ring).
  rewrite (Rsum_map_scaled (fun v => (v - mu) * (v - mu)) (/ sigma * / sigma)).
  assert (fold_left Rplus (map (fun v => (v - mu) * (v - mu)) l) 0
          = V * INR (length l)) as ->.
  { unfold V. rewrite Rmean_unfold, length_map. field. exact Hn. }
  rewrite <- Hsq.
  replace (sigma * sigma * INR (length l) * (/ sigma * / sigma) / INR (length l))
    with 1 by (field; split; assumption).
  apply sqrt_1.
Qed.

End Reals.


(** In binary64 the values of [fit_transform_values] are those that the
    embedding of [fit_transform] computes with the reference reductions:
    [(X - mean) / std] of X6. *)
Example binary64_values (ax : axes) (x : tensor) :
  Exact.fit_transform_values Exact.binary64 ax x =
  normalized x (@np_mean Reference.numpy ax x) (@np_std Reference.numpy ax x).
Proof. reflexivity. Qed.



End ExactFacts.

(** ** Properties of the model wrapper *)

Module ModelFacts.
Import Scaler Utils Model ArrayFacts ScalerFacts Examples.
Local Open Scope list_scope.

Section WithLibraries.
Context `{SciPy} `{Sklearn}.
Variable cfg : config.
Variable module_dir : string.
Variable find_nearest_time : gmap string file -> string -> string.

(** The setter on a wrapper whose store is a dict. *)
Lemma set_ch_ind_dict (self : t) (h : arrays) (value : ref) (v : list Z) d :
  data_dict self = PyDict d ->
  h !! value = Some v ->
  set_ch_ind value (self, h) =
  ((with_data_dict (with_ch_ind self value) (PyDict (<[ind_ch_scores := value]> d)),
    <[value := merge_sort Z.le v]> h),
   Ok tt).
Proof.
  intros Hd Hv. unfold set_ch_ind, bind, array_sort, set__ch_ind, setitem_data_dict.
  simpl. rewrite Hv. simpl. rewrite Hd. reflexivity.
Qed.

(** The setter on a wrapper whose store is a loaded archive. *)
Lemma set_ch_ind_npz (self : t) (h : arrays) (value : ref) (v : list Z) z :
  data_dict self = NpzFile z ->
  h !! value = Some v ->
  set_ch_ind value (self, h) =
  ((with_ch_ind self value, <[value := merge_sort Z.le v]> h),
   Raise (TypeError "'NpzFile' object does not support item assignment")).
Proof.
  intros Hd Hv. unfold set_ch_ind, bind, array_sort, set__ch_ind, setitem_data_dict.
  simpl. rewrite Hv. simpl. unfold with_ch_ind. rewrite Hd. reflexivity.
Qed.

(** X21. On a wrapper whose coefficient store is the dict of train mode,
    assigning an array to [ch_ind] returns normally; the index set read back
    through the property is then sorted in ascending order and holds the
    assigned values, and the store's entry [ind_ch_scores] is the stored
    index set. *)
Theorem ch_ind_sorted_and_mirrored (self : t) (h : arrays) (value : ref)
  (v : list Z) (d : gmap string ref) :
  data_dict self = PyDict d ->
  h !! value = Some v ->
  exists self' h' r stored d',
    set_ch_ind value (self, h) = ((self', h'), Ok tt) /\
    ch_ind self' = Ok r /\
    h' !! r = Some stored /\
    Sorted Z.le stored /\
    stored ≡ₚ v /\
    data_dict self' = PyDict d' /\
    d' !! ind_ch_scores = Some r.
Proof.
  intros Hd Hv.
  eexists _, _, value, (merge_sort Z.le v), _.
  split; [by apply set_ch_ind_dict|].
  split; [done|].
  split.
  { apply list_lookup_insert_eq. by eapply lookup_lt_Some. }
  split; [apply (Sorted_merge_sort Z.le)|].
  split; [apply merge_sort_Permutation|].
  split; [done|].
  apply lookup_insert_eq.
Qed.

(** X22. On a wrapper whose coefficient store is the dict of train mode,
    the setter sorts the caller's array where it is (no array is created and
    no other array changes) and stores the reference it was given both as
    the private index set and as the store's entry [ind_ch_scores]: the
    caller's array and the two stored views are one object, so that a later
    write to it shows through both views. *)
Theorem ch_ind_setter_aliases (self : t) (h : arrays) (value : ref)
  (v : list Z) (d : gmap string ref) :
  data_dict self = PyDict d ->
  h !! value = Some v ->
  exists self' h',
    set_ch_ind value (self, h) = ((self', h'), Ok tt) /\
    h' = <[value := merge_sort Z.le v]> h /\
    h' !! value = Some (merge_sort Z.le v) /\
    length h' = length h /\
    (forall l, l <> value -> h' !! l = h !! l) /\
    _ch_ind self' = Some value /\
    data_dict self' = PyDict (<[ind_ch_scores := value]> d) /\
    forall (later : list Z) (r1 r2 : ref),
      ch_ind self' = Ok r1 ->
      <[ind_ch_scores := value]> d !! ind_ch_scores = Some r2 ->
      <[value := later]> h' !! r1 = Some later /\
      <[value := later]> h' !! r2 = Some later.
Proof.
  intros Hd Hv.
  pose proof (lookup_lt_Some _ _ _ Hv) as Hlt.
  eexists _, _.
  split; [by apply set_ch_ind_dict|].
  split; [done|].
  split; [by apply list_lookup_insert_eq|].
  split; [apply length_insert|].
  split; [intros l Hl; by apply list_lookup_insert_ne|].
  split; [done|].
  split; [done|].
  intros later r1 r2 [= <-]. rewrite lookup_insert_eq. intros [= <-].
  split; apply list_lookup_insert_eq; by rewrite length_insert.
Qed.

Lemma app_inv_head_string (a b c : string) : (a ++ b = a ++ c)%string -> b = c.
Proof. induction a as [|ch a IH]; simpl; [done|]. intros [= Heq]. auto. Qed.

Lemma coef_not_model_in (dir : string) :
  join_component dir "model.pkl" <> join_component dir "coef.npz".
Proof.
  unfold join_component. simpl.
  destruct (String.eqb dir "" || ends_with_sep dir); intros Heq;
    repeat apply app_inv_head_string in Heq; discriminate.
Qed.

Lemma coef_path_not_model_path (p d : string) :
  path_join p d "model.pkl" <> path_join p d "coef.npz".
Proof. apply coef_not_model_in. Qed.

(** Writing where it is possible, and where it is not. *)
Lemma write_file_writable (dir name : string) (f : file) (w : world) :
  writable (disk w) dir name = true ->
  write_file dir name f w =
  ({| mem := mem w; disk := <[join_component dir name := f]> (disk w) |}, Ok tt).
Proof.
  unfold writable, write_file.
  destruct (disk w !! join_component dir name) as [[z|p|]|]; try done;
    by intros ->.
Qed.

Lemma write_file_refused (dir name : string) (f : file) (w : world) :
  writable (disk w) dir name = false ->
  exists e, write_file dir name f w = (w, Raise e).
Proof.
  unfold writable, write_file.
  destruct (disk w !! join_component dir name) as [[z|p|]|]; try (intros ->);
    try (destruct (is_file (disk w) dir)); eauto.
Qed.

(** A file written into a directory leaves the other file of the session
    writable, and makes the directory one that exists. *)
Lemma writable_model_after_coef (dk : gmap string file) (dir : string) z :
  writable dk dir "model.pkl" = true ->
  writable (<[join_component dir "coef.npz" := NpzArchive z]> dk) dir "model.pkl" = true.
Proof.
  unfold writable. rewrite lookup_insert_ne by (apply not_eq_sym, coef_not_model_in).
  destruct (dk !! join_component dir "model.pkl") as [[?|?|]|]; try done;
    intros _; unfold dir_exists, is_file; rewrite (lookup_insert_eq dk);
    by rewrite !orb_true_r.
Qed.

Lemma session_writable_both (dk : gmap string file) (dir : string) :
  session_writable dk dir = true ->
  writable dk dir "coef.npz" = true /\ writable dk dir "model.pkl" = true.
Proof. unfold session_writable. by intros [? ?]%andb_true_iff. Qed.

(** What [dump] writes for a wrapper whose store is a non-empty dict, into
    a session that can be written to. *)
Lemma dump_dict (self : t) (w : world) d :
  data_dict self = PyDict d ->
  d <> ∅ ->
  session_writable (disk w) (session_dir self) = true ->
  dump self w =
  ({| mem := mem w;
      disk := <[path_join (_subj_path self) (_date self) "model.pkl" := Pickle (cls self)]>
              (<[path_join (_subj_path self) (_date self) "coef.npz" :=
                   NpzArchive (snapshot d (mem w))]> (disk w)) |},
   Ok tt).
Proof.
  intros Hd Hne [Hc Hm]%session_writable_both. unfold dump, save_coef.
  rewrite Hd. destruct (decide (d = ∅)); [done|]. unfold bind, get_world.
  rewrite (write_file_writable _ _ _ _ Hc).
  rewrite write_file_writable by (by apply writable_model_after_coef).
  reflexivity.
Qed.

(** Construction in test mode when both artifacts are in place. *)
Lemma init_test (w : world) (subject date : string) (kw : kwargs) z p v :
  let subj_path := (module_dir ++ "/../data/" ++ subject)%string in
  disk w !! path_join subj_path date "coef.npz" = Some (NpzArchive z) ->
  disk w !! path_join subj_path date "model.pkl" = Some (Pickle p) ->
  z !! ind_ch_scores = Some v ->
  init cfg module_dir find_nearest_time (Some subject) (DateStr date) "test" kw w =
  ({| mem := mem w ++ [v]; disk := disk w |},
   Ok {| _subj_path := subj_path; _date := date; mode := "test";
         data_dict := NpzFile z; cls := p;
         _ch_ind := Some (length (mem w)) |}).
Proof.
  intros subj_path Hz Hp Hv.
  unfold init, bind, get_world, np_load, joblib_load, getitem. simpl.
  fold subj_path. rewrite Hz, Hp, Hv. reflexivity.
Qed.

(** Construction in test mode when the coefficient archive is missing. *)
Lemma init_test_no_coef (w : world) (subject date : string) (kw : kwargs) :
  let subj_path := (module_dir ++ "/../data/" ++ subject)%string in
  disk w !! path_join subj_path date "coef.npz" = None ->
  init cfg module_dir find_nearest_time (Some subject) (DateStr date) "test" kw w =
  (w, Raise (FileNotFoundError (path_join subj_path date "coef.npz"))).
Proof.
  intros subj_path Hz.
  unfold init, bind, get_world, np_load. simpl.
  fold subj_path. rewrite Hz. reflexivity.
Qed.

(** A wrapper whose dict store is empty dumps the pipeline only: where no
    coefficient archive was in place before, loading the session in test
    mode fails. *)
Lemma dump_empty_store_then_load (self : t) (w : world) (subject date : string)
  (kw : kwargs) :
  let coef := path_join (module_dir ++ "/../data/" ++ subject)%string date "coef.npz" in
  _subj_path self = (module_dir ++ "/../data/" ++ subject)%string ->
  _date self = date ->
  data_dict self = PyDict ∅ ->
  disk w !! coef = None ->
  writable (disk w) (session_dir self) "model.pkl" = true ->
  exists w1,
    dump self w = (w1, Ok tt) /\
    init cfg module_dir find_nearest_time (Some subject) (DateStr date) "test" kw w1
      = (w1, Raise (FileNotFoundError coef)).
Proof.
  intros coef Hp Hdate Hd Hnone Hw.
  eexists. split.
  - unfold dump, save_coef. rewrite Hd.
    destruct (decide (∅ = ∅)) as [_|Hne]; [|done]. unfold bind, ret.
    by apply write_file_writable.
  - apply init_test_no_coef. simpl. unfold session_dir. rewrite Hp, Hdate.
    rewrite lookup_insert_ne by apply coef_path_not_model_path. done.
Qed.

(** Dumping a wrapper whose dict store holds the index set, and loading
    the session in test mode. *)
Lemma dump_then_load (self : t) (w : world) (subject date : string)
  (kw : kwargs) (d : gmap string ref) (r : ref) (v : list Z) :
  _subj_path self = (module_dir ++ "/../data/" ++ subject)%string ->
  _date self = date ->
  data_dict self = PyDict d ->
  d !! ind_ch_scores = Some r ->
  mem w !! r = Some v ->
  session_writable (disk w) (session_dir self) = true ->
  exists w1 w2 loaded r',
    dump self w = (w1, Ok tt) /\
    init cfg module_dir find_nearest_time (Some subject) (DateStr date) "test" kw w1
      = (w2, Ok loaded) /\
    cls loaded = cls self /\
    (forall X, decision_function loaded X = decision_function self X) /\
    data_dict loaded = NpzFile (snapshot d (mem w)) /\
    snapshot d (mem w) !! ind_ch_scores = Some v /\
    ch_ind loaded = Ok r' /\
    mem w2 !! r' = Some v.
Proof.
  intros Hp Hdate Hd Hr Hv Hw.
  assert (d <> ∅) as Hne by (intros ->; by rewrite lookup_empty in Hr).
  assert (snapshot d (mem w) !! ind_ch_scores = Some v) as Hsnap.
  { unfold snapshot. rewrite lookup_omap, Hr. done. }
  eexists _, _, _, (length (mem w)).
  split; [by apply dump_dict|].
  rewrite Hp, Hdate.
  split.
  { apply init_test with (z := snapshot d (mem w)) (p := cls self) (v := v); simpl.
    - rewrite lookup_insert_ne by apply coef_path_not_model_path.
      apply lookup_insert_eq.
    - apply lookup_insert_eq.
    - done. }
  simpl. split; [done|]. split; [done|]. split; [done|].
  split; [done|]. split; [done|].
  apply lookup_snoc.
Qed.

(** Construction in train mode: a fresh pipeline, an empty dict as
    coefficient store, no index set. *)
Lemma init_train (w : world) (subject date : string) (kw : kwargs) :
  init cfg module_dir find_nearest_time (Some subject) (DateStr date) "train" kw w =
  (w, Ok {| _subj_path := (module_dir ++ "/../data/" ++ subject)%string;
            _date := date; mode := "train"; data_dict := PyDict ∅;
            cls := make_pipeline (default 3 (kw_n_components kw))
                                 (default 1%float (kw_C kw));
            _ch_ind := None |}).
Proof.
  unfold init, bind, get_world, ret. simpl.
  by destruct (kw_C kw), (kw_n_components kw).
Qed.

(** C1, as amended. A wrapper is constructed in train mode for a session
    whose directory exists and can be written to, is fitted on labeled
    epochs, and has a channel-selection index set assigned (an array of the
    heap). Then [dump] returns and has written both artifacts: the pipeline
    to the session's [model.pkl], and to its [coef.npz] an archive whose
    entry [ind_ch_scores] is the sorted index set. Constructing a wrapper in
    test mode for the same subject and session succeeds: its coefficient
    store is that archive, it holds the pipeline that was dumped, so that
    [decision_function] returns on every input what the original wrapper
    returns, and its index set holds the values that were stored. *)
Theorem dump_load_roundtrip (subject date : string) (kw kw' : kwargs)
  (w : world) (X : tensor) (y : list Z) (value : ref) (v : list Z) :
  mem w !! value = Some v ->
  session_writable (disk w)
    (join_component (module_dir ++ "/../data/" ++ subject)%string date) = true ->
  exists new fitted outcome selected h w1 w2 loaded r',
    init cfg module_dir find_nearest_time (Some subject) (DateStr date) "train" kw w
      = (w, Ok new) /\
    fit new X y = (fitted, outcome) /\
    set_ch_ind value (fitted, mem w) = ((selected, h), Ok tt) /\
    dump selected {| mem := h; disk := disk w |} = (w1, Ok tt) /\
    disk w1 !! path_join (module_dir ++ "/../data/" ++ subject)%string date "model.pkl"
      = Some (Pickle (cls selected)) /\
    (exists z,
       disk w1 !! path_join (module_dir ++ "/../data/" ++ subject)%string date "coef.npz"
         = Some (NpzArchive z) /\
       z !! ind_ch_scores = Some (merge_sort Z.le v) /\
       data_dict loaded = NpzFile z) /\
    init cfg module_dir find_nearest_time (Some subject) (DateStr date) "test" kw' w1
      = (w2, Ok loaded) /\
    cls loaded = cls selected /\
    (forall X', decision_function loaded X' = decision_function selected X') /\
    ch_ind loaded = Ok r' /\
    mem w2 !! r' = Some (merge_sort Z.le v).
Proof.
  intros Hv Hw.
  pose proof (init_train w subject date kw) as Hnew.
  set (new := {| _subj_path := (module_dir ++ "/../data/" ++ subject)%string;
                 _date := date; mode := "train"; data_dict := PyDict ∅;
                 cls := make_pipeline (default 3 (kw_n_components kw))
                                      (default 1%float (kw_C kw));
                 _ch_ind := None |}) in *.
  destruct (fit new X y) as [fitted outcome] eqn:Hfit.
  assert (_subj_path fitted = (module_dir ++ "/../data/" ++ subject)%string /\
          _date fitted = date /\ data_dict fitted = PyDict ∅) as (Hp & Hd & Hdd).
  { unfold fit in Hfit. destruct (pipeline_fit (cls new) X y).
    injection Hfit as <- <-. done. }
  pose proof (set_ch_ind_dict fitted (mem w) value v ∅ Hdd Hv) as Hset.
  destruct (dump_then_load
              (with_data_dict (with_ch_ind fitted value)
                 (PyDict (<[ind_ch_scores := value]> ∅)))
              {| mem := <[value := merge_sort Z.le v]> (mem w); disk := disk w |}
              subject date kw' (<[ind_ch_scores := value]> ∅) value
              (merge_sort Z.le v))
    as (w1 & w2 & loaded & r' & Hdump & Hload & Hcls & Hdec & Hstore & Hkey
        & Hci & Hmem);
    try done.
  { simpl. apply list_lookup_insert_eq. by eapply lookup_lt_Some. }
  { unfold session_dir. simpl. by rewrite Hp, Hd. }
  assert (disk w1 !! path_join (module_dir ++ "/../data/" ++ subject)%string date
                        "model.pkl"
          = Some (Pickle (cls fitted)) /\
          disk w1 !! path_join (module_dir ++ "/../data/" ++ subject)%string date
                        "coef.npz"
          = Some (NpzArchive
                    (snapshot (<[ind_ch_scores := value]> ∅)
                       (<[value := merge_sort Z.le v]> (mem w))))) as [Hpkl Hcoef].
  { assert (<[ind_ch_scores := value]> (∅ : gmap string nat) <> ∅) as Hne.
    { intros Hemp. apply (f_equal (fun m => m !! ind_ch_scores)) in Hemp.
      by rewrite lookup_insert_eq, lookup_empty in Hemp. }
    rewrite (dump_dict
               (with_data_dict (with_ch_ind fitted value)
                  (PyDict (<[ind_ch_scores := value]> ∅)))
               {| mem := <[value := merge_sort Z.le v]> (mem w); disk := disk w |}
               (<[ind_ch_scores := value]> ∅) eq_refl Hne) in Hdump
      by (unfold session_dir; simpl; by rewrite Hp, Hd).
    injection Hdump as <-. simpl. rewrite Hp, Hd. split.
    - apply lookup_insert_eq.
    - rewrite lookup_insert_ne by apply coef_path_not_model_path.
      apply lookup_insert_eq. }
  exists new, fitted, outcome,
    (with_data_dict (with_ch_ind fitted value) (PyDict (<[ind_ch_scores := value]> ∅))),
    (<[value := merge_sort Z.le v]> (mem w)), w1, w2, loaded, r'.
  simpl in Hmem, Hstore, Hkey.
  split; [done|]. split; [done|]. split; [done|]. split; [done|]. split; [done|].
  split; [eauto|]. done.
Qed.

(** C7. Whenever the configured recording type is not the supported one,
    ["eeg"], [raw2epoch] raises the unsupported-type error [KeyError] on
    every input, and so returns no epoch tensor. *)
Theorem raw2epoch_unsupported_type (raw_data : list (list float))
  (timestamps : list Z) (events : list (list nat)) :
  rec_type cfg <> "eeg" ->
  raw2epoch cfg raw_data timestamps events =
    Raise (KeyError "Unsupported recording type.") /\
  forall epochs, raw2epoch cfg raw_data timestamps events <> Ok epochs.
Proof.
  intros Hty. apply String.eqb_neq in Hty.
  unfold raw2epoch. rewrite Hty. simpl. split; [done|]. intros epochs. discriminate.
Qed.

Lemma length_concat_uniform {A : Type} (xss : list (list A)) n :
  Forall (fun row => length row = n) xss ->
  length (concat xss) = (length xss * n)%nat.
Proof.
  induction 1 as [|row xss Hrow _ IH]; simpl; [done|].
  rewrite length_app, IH, Hrow. done.
Qed.

#[local] Instance label_le_total : Total label_le.
Proof. intros [a i] [b j]. unfold label_le. simpl. lia. Qed.

#[local] Instance label_le_trans : Transitive label_le.
Proof. intros [a i] [b j] [c k]. unfold label_le. simpl. lia. Qed.

Lemma StronglySorted_lookup_lt {A : Type} (R : relation A) (l : list A) i j x y :
  StronglySorted R l -> (i < j)%nat -> l !! i = Some x -> l !! j = Some y -> R x y.
Proof.
  intros Hs. revert i j. induction Hs as [|z l _ IH Hz]; intros i j Hij Hi Hj.
  - done.
  - destruct j as [|j]; [lia|]. simpl in Hj. destruct i as [|i]; simpl in Hi.
    + injection Hi as <-. rewrite Forall_forall in Hz. apply Hz.
      by eapply list_elem_of_lookup_2.
    + apply (IH i j); [lia | done | done].
Qed.

(** The slots of a trial in label order: every slot once, each with its
    label, and the labels ascending. *)
Lemma argsort_Permutation (labels : list nat) :
  argsort labels ≡ₚ seq 0 (length labels).
Proof.
  unfold argsort. rewrite merge_sort_Permutation.
  rewrite snd_zip; [done | by rewrite length_seq].
Qed.

Lemma argsort_lookup (labels : list nat) k j :
  argsort labels !! k = Some j ->
  exists a,
    labels !! j = Some a /\
    merge_sort label_le (zip labels (seq 0 (length labels))) !! k = Some (a, j).
Proof.
  unfold argsort. rewrite list_lookup_fmap. intros Hk.
  destruct (merge_sort _ _ !! k) as [[a j']|] eqn:Hs; simpl in Hk; [|done].
  injection Hk as ->. exists a. split; [|done].
  apply list_elem_of_lookup_2 in Hs. rewrite merge_sort_Permutation in Hs.
  apply list_elem_of_lookup in Hs as [i Hi].
  apply lookup_zip_with_Some in Hi as (a' & j' & [= <- <-] & Ha & Hj).
  apply lookup_seq in Hj as [-> _]. done.
Qed.

Lemma argsort_ascending (labels : list nat) k k' j j' a b :
  (k <= k')%nat ->
  argsort labels !! k = Some j ->
  argsort labels !! k' = Some j' ->
  labels !! j = Some a ->
  labels !! j' = Some b ->
  (a < b)%nat \/ (a = b /\ (j <= j')%nat).
Proof.
  intros Hk Hj Hj' Ha Hb.
  apply argsort_lookup in Hj as (a0 & Ha0 & Hs).
  apply argsort_lookup in Hj' as (b0 & Hb0 & Hs').
  assert (a0 = a) as -> by congruence. assert (b0 = b) as -> by congruence.
  destruct (decide (k = k')) as [<-|Hne].
  - assert (j = j') as -> by congruence. right. split; [congruence | lia].
  - apply (StronglySorted_lookup_lt label_le
             (merge_sort label_le (zip labels (seq 0 (length labels))))
             k k' (a, j) (b, j')); [|lia|done|done].
    apply (StronglySorted_merge_sort label_le).
Qed.

Lemma sorted_slots_Permutation (first : nat) (events : list (list nat)) :
  sorted_slots first events ≡ₚ seq first (length (concat events)).
Proof.
  revert first. induction events as [|row events IH]; intros first; simpl; [done|].
  rewrite length_app, seq_app, IH, argsort_Permutation.
  pose proof (fmap_add_seq first 0 (length row)) as Hs.
  rewrite Nat.add_0_r in Hs. by rewrite <- Hs.
Qed.

Lemma sorted_slots_lookup (first : nat) (events : list (list nat)) reps trial row k j :
  Forall (fun r => length r = reps) events ->
  events !! trial = Some row ->
  argsort row !! k = Some j ->
  sorted_slots first events !! (trial * reps + k)%nat
    = Some (first + (trial * reps + j))%nat.
Proof.
  intros Hall. revert first trial.
  induction Hall as [|r events Hr _ IH]; intros first trial Hrow Hk; [done|].
  assert (length (argsort r) = reps) as Hlen.
  { by rewrite argsort_Permutation, length_seq. }
  destruct trial as [|trial]; simpl in *.
  - injection Hrow as ->.
    rewrite lookup_app_l by (rewrite length_map; by eapply lookup_lt_Some).
    rewrite list_lookup_fmap, Hk. done.
  - rewrite lookup_app_r by (rewrite length_map, Hlen; lia).
    rewrite length_map, Hlen.
    replace (reps + trial * reps + k - reps)%nat with (trial * reps + k)%nat by lia.
    rewrite (IH _ _ Hrow Hk), Hr. f_equal. lia.
Qed.

(** Gathering by indices that are all in range. *)
Lemma gather_in_range {A : Type} (epochs : list A) (idx : list nat) :
  Forall (fun i => (i < length epochs)%nat) idx ->
  Forall2 (fun i e => epochs !! i = Some e) idx (omap (fun i => epochs !! i) idx).
Proof.
  induction 1 as [|i idx Hi _ IH]; simpl; [constructor|].
  apply lookup_lt_is_Some in Hi as [e He]. rewrite He. by constructor.
Qed.

Lemma step_slice_stride {A : Type} (d : Z) (row : list A) :
  d <> 0 -> step_slice d row = Ok (stride d row).
Proof.
  intros Hd. unfold step_slice, stride.
  destruct (Z.eqb_spec d 0); [done|]. by destruct (0 <? d).
Qed.

Lemma downsample_nonzero (d : Z) (epochs : tensor) :
  d <> 0 -> downsample d epochs = Ok (map (map (stride d)) epochs).
Proof.
  intros Hd. unfold downsample. destruct (Z.eqb_spec d 0); [done|].
  assert (forall ep : list (list float),
            traverse (step_slice d) ep = Ok (map (stride d) ep)) as He.
  { intros ep. rewrite <- traverse_pure.
    induction ep as [|row ep IH]; simpl; [done|].
    by rewrite step_slice_stride, IH. }
  rewrite <- traverse_pure.
  induction epochs as [|ep epochs IH]; simpl; [done|]. by rewrite He, IH.
Qed.

Lemma downsample_positive (d : Z) (epochs : tensor) :
  0 < d ->
  downsample d epochs = Ok (map (map (every (Z.to_nat d) 0)) epochs).
Proof.
  intros Hd. rewrite downsample_nonzero by lia. unfold stride.
  by destruct (Z.ltb_spec 0 d); [|lia].
Qed.


End WithLibraries.

(** *** The wrapper on concrete sessions *)

Example train_construction :
  init Reference.cfg here Reference.latest (Some "S1") (DateStr session) "Train"
    no_kwargs fresh_world = (fresh_world, Ok ex_new).
Proof. reflexivity. Qed.

Example train_construction_defaults :
  init Reference.cfg here Reference.latest None NoDate "train"
    no_kwargs fresh_world = (fresh_world, Ok ex_new).
Proof. reflexivity. Qed.

Example construction_bad_mode :
  init Reference.cfg here Reference.latest (Some "S1") (DateStr session) "eval"
    no_kwargs fresh_world = (fresh_world, Raise AssertionError).
Proof. reflexivity. Qed.

Example construction_datetime :
  strftime {| year := 2020; month := 1; day := 1; hour := 0; minute := 0; second := 0 |}
  = session.
Proof. reflexivity. Qed.

Example train_fit : fit ex_new ex_X ex_y = (ex_fitted, Ok tt).
Proof. reflexivity. Qed.

Example getter_before_assignment : ch_ind ex_fitted = Raise (AttributeError "_ch_ind").
Proof. reflexivity. Qed.

(** The example of the specification: assigning [[3, 1, 2]]. *)
Example train_assignment :
  set_ch_ind 0%nat (ex_fitted, mem fresh_world) = ((ex_selected, [[1; 2; 3]]), Ok tt).
Proof. reflexivity. Qed.

Lemma ch_ind_sorted_and_mirrored_witness :
  exists self' h' r stored d',
    set_ch_ind 0%nat (ex_fitted, [[3; 1; 2]]) = ((self', h'), Ok tt) /\
    ch_ind self' = Ok r /\
    h' !! r = Some stored /\
    Sorted Z.le stored /\
    stored ≡ₚ [3; 1; 2] /\
    data_dict self' = PyDict d' /\
    d' !! ind_ch_scores = Some r.
Proof.
  apply (ch_ind_sorted_and_mirrored ex_fitted [[3; 1; 2]] 0%nat [3; 1; 2] ∅);
    reflexivity.
Defined.

Lemma ch_ind_setter_aliases_witness :
  exists self' h',
    set_ch_ind 0%nat (ex_fitted, [[3; 1; 2]]) = ((self', h'), Ok tt) /\
    h' !! 0%nat = Some [1; 2; 3] /\
    _ch_ind self' = Some 0%nat /\
    data_dict self' = PyDict (<[ind_ch_scores := 0%nat]> ∅).
Proof.
  destruct (ch_ind_setter_aliases ex_fitted [[3; 1; 2]] 0%nat [3; 1; 2] ∅
              eq_refl eq_refl)
    as (self' & h' & Hset & _ & Hval & _ & _ & Hci & Hdd & _).
  exists self', h'. repeat split; assumption.
Defined.

Lemma dump_load_roundtrip_witness :
  exists selected h w1 w2 loaded r',
    set_ch_ind 0%nat (ex_fitted, [[3; 1; 2]]) = ((selected, h), Ok tt) /\
    dump selected {| mem := h; disk := disk fresh_world |} = (w1, Ok tt) /\
    init Reference.cfg here Reference.latest (Some "S1") (DateStr session) "test"
      no_kwargs w1 = (w2, Ok loaded) /\
    (forall X, decision_function loaded X = decision_function selected X) /\
    ch_ind loaded = Ok r' /\
    mem w2 !! r' = Some [1; 2; 3].
Proof.
  destruct (dump_load_roundtrip Reference.cfg here Reference.latest "S1" session
              no_kwargs no_kwargs fresh_world ex_X ex_y 0%nat [3; 1; 2]
              eq_refl eq_refl)
    as (new & fitted & outcome & selected & h & w1 & w2 & loaded & r'
        & Hnew & Hfit & Hset & Hdump & _ & _ & Hload & _ & Hdec & Hci & Hmem).
  injection Hnew as <-. injection Hfit as <- <-.
  exists selected, h, w1, w2, loaded, r'. repeat split; assumption.
Defined.

(** Against C1 as stated: the round trip of a wrapper that was constructed
    in train mode and fitted, but whose index set was never assigned, in a
    session whose directory exists. [dump] returns, having written the
    pipeline and no coefficient archive, and the construction in test mode
    fails on the missing file. *)
Lemma roundtrip_needs_ch_ind :
  init Reference.cfg here Reference.latest (Some "S1") (DateStr session) "train"
    no_kwargs fresh_world = (fresh_world, Ok ex_new) /\
  fit ex_new ex_X ex_y = (ex_fitted, Ok tt) /\
  exists w1,
    dump ex_fitted fresh_world = (w1, Ok tt) /\
    init Reference.cfg here Reference.latest (Some "S1") (DateStr session) "test"
      no_kwargs w1 =
    (w1, Raise (FileNotFoundError
                  "/repo/Offline/../data/S1/2020-01-01-00-00-00/coef.npz")).
Proof.
  split; [reflexivity|]. split; [reflexivity|].
  eexists. split; [reflexivity|]. reflexivity.
Qed.

(** Without the session directory [dump] writes nothing: [np.savez]
    raises, and the pipeline is not written either. *)
Example dump_without_session_directory :
  dump ex_selected {| mem := [[1; 2; 3]]; disk := ∅ |} =
  ({| mem := [[1; 2; 3]]; disk := ∅ |},
   Raise (FileNotFoundError
            "/repo/Offline/../data/S1/2020-01-01-00-00-00/coef.npz")).
Proof. reflexivity. Qed.

Example test_construction :
  init Reference.cfg here Reference.latest (Some "S1") (DateStr session) "test"
    no_kwargs stored_world =
  ({| mem := [[3; 1; 2]; [0; 5]]; disk := disk stored_world |}, Ok ex_loaded).
Proof. reflexivity. Qed.

(** C5. The setter on the failing input: assigning [[3, 1, 2]] to [ch_ind]
    of a wrapper loaded in test mode, whose coefficient store is the
    read-only archive with the entry [[0, 5]]. The assignment does not keep
    the two views consistent: it raises [TypeError] at the line that mirrors
    the index set into the store, after the array was sorted and became the
    index set; the index set read back is [[1, 2, 3]], and the store's entry
    under [ind_ch_scores] is still [[0, 5]]. *)
Lemma ch_ind_views_differ_in_test_mode :
  exists loaded' h' z,
    set_ch_ind 0%nat (ex_loaded, [[3; 1; 2]; [0; 5]]) =
      ((loaded', h'),
       Raise (TypeError "'NpzFile' object does not support item assignment")) /\
    ch_ind loaded' = Ok 0%nat /\
    h' !! 0%nat = Some [1; 2; 3] /\
    data_dict loaded' = NpzFile z /\
    z !! ind_ch_scores = Some [0; 5].
Proof. eexists _, _, _. repeat split; reflexivity. Qed.

(** C10. The setter on the failing input: after the assignment of
    [[3, 1, 2]] on a wrapper loaded in test mode the caller's array is
    sorted in place and is the private index set, but it is not the store's
    entry [ind_ch_scores]: the setter raised [TypeError] before storing it,
    and reading the entry yields another object, with other contents. The
    two stored views are not aliases of one object. *)
Lemma ch_ind_store_entry_not_aliased_in_test_mode :
  exists loaded' h' w r,
    set_ch_ind 0%nat (ex_loaded, [[3; 1; 2]; [0; 5]]) =
      ((loaded', h'),
       Raise (TypeError "'NpzFile' object does not support item assignment")) /\
    _ch_ind loaded' = Some 0%nat /\
    getitem (data_dict loaded') ind_ch_scores
      {| mem := h'; disk := disk stored_world |} = (w, Ok r) /\
    r <> 0%nat /\
    mem w !! r = Some [0; 5] /\
    mem w !! 0%nat = Some [1; 2; 3].
Proof. eexists _, _, _, _. repeat split; try reflexivity. discriminate. Qed.

(** *** The segmenter on a concrete recording *)

Lemma raw2epoch_unsupported_type_witness :
  @raw2epoch Reference.scipy meg_cfg [[1%float; 2%float]] [0] [[0%nat]] =
  Raise (KeyError "Unsupported recording type.").
Proof.
  apply (@raw2epoch_unsupported_type Reference.scipy meg_cfg). discriminate.
Defined.

Example raw2epoch_sizes :
  map (map (@length float)) <$>
    @raw2epoch Reference.scipy Reference.cfg ex_raw [4; 10] [[1%nat; 0%nat]]
  = Ok [[3%nat; 3%nat]; [3%nat; 3%nat]].
Proof. vm_compute. reflexivity. Qed.

(** Two trials of two epochs: in the first trial the epoch that arrived
    second has the smaller entry and is put first, the second trial is in
    order already. *)
Example raw2epoch_two_trials :
  @raw2epoch Reference.scipy Reference.cfg ex_raw [4; 10; 6; 12]
    [[1%nat; 0%nat]; [0%nat; 1%nat]] =
  Ok (map (fun ts => map (@per_channel Reference.scipy Reference.cfg 2)
                       (cut_one ((-1 # 5)%Q, (4 # 5)%Q, 10) ex_raw ts))
          [10; 4; 6; 12]).
Proof. vm_compute. reflexivity. Qed.

(** The ratio of the rates is the truncated binary64 quotient. *)
Example int_div_examples :
  int_div 10 5 = Ok 2 /\ int_div 7 2 = Ok 3 /\ int_div (-7) 2 = Ok (-3) /\
  int_div 5 10 = Ok 0 /\ int_div 1 0 = Raise ZeroDivisionError /\
  int_div (3 * 2 ^ 59 - 1) (2 ^ 59) = Ok 3 /\
  int_div (2 ^ 1024) 1 = Raise OverflowError.
Proof. vm_compute. repeat split. Qed.



End ModelFacts.

(** ** The normaliser in use: fitting, unfitted use, repeated use *)

Module ScalerUse.
Import Scaler ArrayFacts ScalerFacts Examples.
Local Open Scope list_scope.

Lemma lookup_app_old {A : Type} (h k : list A) l w :
  h !! l = Some w -> (h ++ k) !! l = Some w.
Proof. intros Hl. rewrite lookup_app_l; [done | by eapply lookup_lt_Some]. Qed.

(** The steps of [inplace] on the newest array, whatever the attribute. *)
Lemma inplace_newest op (h : heap) (x : tensor) attr :
  exists w, fst (inplace op (length h) attr (h ++ [x])) = h ++ [w].
Proof.
  unfold inplace, bind, operand, deref, lift, store, raise.
  rewrite lookup_snoc.
  destruct attr as [l|]; [|eauto].
  destruct ((h ++ [x]) !! l) as [m|]; [|eauto].
  destruct (elementwise op x m); [|eauto].
  rewrite insert_snoc. eauto.
Qed.

(** X1. [transform] never writes to an array that exists when it is
    called, whether the scaler is fitted or not and whether the call
    returns or raises; it creates exactly one array, the copy it works
    on. *)
Theorem transform_frame (self : ChannelScaler) (X : loc) (h : heap) :
  (forall l v, h !! l = Some v -> fst (transform self X h) !! l = Some v) /\
  (forall x, h !! X = Some x ->
     length (fst (transform self X h)) = S (length h)).
Proof.
  assert (forall x, h !! X = Some x ->
            exists w, fst (transform self X h) = h ++ [w]) as Hnew.
  { intros x HX. unfold transform, bind, alloc, deref, ret. rewrite HX.
    destruct (inplace_newest PrimFloat.sub h x (channel_mean_ self)) as [w1 Hw1].
    destruct (inplace PrimFloat.sub (length h) (channel_mean_ self) (h ++ [x]))
      as [h1 [[]|e]]; simpl in Hw1; subst h1; [|eauto].
    destruct (inplace_newest PrimFloat.div h w1 (channel_std_ self)) as [w2 Hw2].
    destruct (inplace PrimFloat.div (length h) (channel_std_ self) (h ++ [w1]))
      as [h2 [[]|e]]; simpl in Hw2; subst h2; eauto. }
  assert (h !! X = None ->
          transform self X h = (h, Raise (ValueError "no such array"))) as Hnone.
  { intros HX. unfold transform, bind, deref. by rewrite HX. }
  split.
  - intros l v Hl. destruct (h !! X) as [x|] eqn:HX.
    + destruct (Hnew x eq_refl) as [w ->]. by apply lookup_app_old.
    + by rewrite Hnone.
  - intros x HX. destruct (Hnew x HX) as [w ->]. rewrite length_app. simpl. lia.
Qed.

(** X2. A scaler as its constructor returns it is not fitted: [transform]
    on it raises [TypeError] on every input array, and leaves behind only
    the copy of the input it started from. *)
Theorem transform_before_fit (mode : string) (self : ChannelScaler) (X : loc)
  (x : tensor) (h : heap) :
  init mode = Ok self ->
  h !! X = Some x ->
  transform self X h =
  (h ++ [x], Raise (TypeError "unsupported operand type: NoneType")).
Proof.
  intros Hinit HX.
  assert (channel_mean_ self = None) as Hm.
  { unfold init in Hinit.
    destruct (negb (str_in (lower mode) ["channel"; "dim"])); [done|].
    by injection Hinit as <-. }
  unfold transform, bind, alloc, deref. rewrite HX. simpl.
  unfold inplace, bind, deref, operand, raise. rewrite lookup_snoc, Hm. done.
Qed.

Lemma transform_before_fit_witness :
  transform
    {| channel_mean_ := None; channel_std_ := None;
       norm_method := "dim"; norm_axis := Some Axis0 |}
    0%nat ex_heap =
  (ex_heap ++ [ex_x], Raise (TypeError "unsupported operand type: NoneType")).
Proof.
  apply (transform_before_fit "Dim" _ 0%nat ex_x ex_heap); reflexivity.
Defined.

(** X3. The statistics are not consumed by [transform]: a second call on
    the same input gives the same contents again, in another new array,
    and raises again if the first call raised. *)
Theorem transform_repeatable (self : ChannelScaler) (X lm ls : loc)
  (x m sd : tensor) (h : heap) :
  channel_mean_ self = Some lm ->
  channel_std_ self = Some ls ->
  h !! X = Some x ->
  h !! lm = Some m ->
  h !! ls = Some sd ->
  match transform self X h with
  | (h1, Ok Y1) =>
      exists y,
        h1 = h ++ [y] /\ Y1 = length h /\
        transform self X h1 = (h ++ [y; y], Ok (S (length h)))
  | (h1, Raise e) => snd (transform self X h1) = Raise e
  end.
Proof.
  intros Hm Hs HX Hlm Hls.
  rewrite (transform_steps self X lm ls x m sd h Hm Hs HX Hlm Hls).
  destruct (elementwise PrimFloat.sub x m) as [d|e] eqn:Ed.
  - destruct (elementwise PrimFloat.div d sd) as [y|e] eqn:Ey.
    + exists y. split; [done|]. split; [done|].
      rewrite (transform_steps self X lm ls x m sd (h ++ [y]) Hm Hs)
        by (by apply lookup_app_old).
      rewrite Ed, Ey, length_app, <- app_assoc. simpl. do 2 f_equal. lia.
    + rewrite (transform_steps self X lm ls x m sd (h ++ [d]) Hm Hs)
        by (by apply lookup_app_old).
      by rewrite Ed, Ey.
  - rewrite (transform_steps self X lm ls x m sd (h ++ [x]) Hm Hs)
      by (by apply lookup_app_old).
    by rewrite Ed.
Qed.

Lemma transform_repeatable_witness :
  exists y,
    transform ex_scaler 0%nat ex_heap = (ex_heap ++ [y], Ok 3%nat) /\
    transform ex_scaler 0%nat (ex_heap ++ [y]) = (ex_heap ++ [y; y], Ok 4%nat).
Proof.
  pose proof (transform_repeatable ex_scaler 0%nat 1%nat 2%nat ex_x ex_mean ex_std
                ex_heap eq_refl eq_refl eq_refl eq_refl eq_refl) as Hr.
  destruct (transform ex_scaler 0%nat ex_heap) as [h1 [Y1|e]] eqn:Ht.
  - destruct Hr as (y & -> & -> & H2). exists y. split; [reflexivity | exact H2].
  - vm_compute in Ht. discriminate.
Defined.

(** X4. When [transform] of a fitted scaler returns, its result has the
    extents of the input on all three axes, whatever the extents of the
    statistics. *)
Theorem transform_keeps_shape (self : ChannelScaler) (X Y lm ls : loc)
  (x m sd : tensor) (h h' : heap) :
  channel_mean_ self = Some lm ->
  channel_std_ self = Some ls ->
  h !! X = Some x ->
  h !! lm = Some m ->
  h !! ls = Some sd ->
  transform self X h = (h', Ok Y) ->
  exists y,
    h' !! Y = Some y /\
    length y = length x /\
    map (map length) y = map (map length) x.
Proof.
  intros Hm Hs HX Hlm Hls.
  rewrite (transform_steps self X lm ls x m sd h Hm Hs HX Hlm Hls).
  destruct (elementwise PrimFloat.sub x m) as [d|e] eqn:Ed; [|done].
  destruct (elementwise PrimFloat.div d sd) as [y|e] eqn:Ey; [|done].
  intros [= <- <-]. exists y.
  split; [apply lookup_snoc|].
  assert (map (map length) y = map (map length) x) as Hsh.
  { rewrite (elementwise_shape _ _ _ _ Ey). by apply elementwise_shape in Ed. }
  split; [|done].
  apply (f_equal length) in Hsh. by rewrite !length_map in Hsh.
Qed.

Lemma transform_keeps_shape_witness :
  exists y,
    (ex_heap ++ [[[[(-1)%float; (-0.5)%float; 0%float]];
                  [[0%float; 0.5%float; 1%float]]]]) !! 3%nat = Some y /\
    length y = length ex_x /\
    map (map length) y = map (map length) ex_x.
Proof.
  apply (transform_keeps_shape ex_scaler 0%nat 3%nat 1%nat 2%nat ex_x ex_mean
           ex_std ex_heap); reflexivity.
Defined.

Section WithNumPy.
Context `{NumPy}.

(** The constructor always sets the axis that goes with the mode. *)
Lemma constructed_axis (mode : string) (self : ChannelScaler) :
  init mode = Ok self ->
  (norm_method self = "channel" /\ norm_axis self = Some Axes02) \/
  (norm_method self = "dim" /\ norm_axis self = Some Axis0).
Proof.
  unfold init. unfold str_in. simpl. rewrite orb_false_r.
  destruct (String.eqb_spec (lower mode) "channel") as [Hc|Hc].
  - simpl. intros [= <-]. simpl. rewrite Hc. by left.
  - destruct (String.eqb_spec (lower mode) "dim") as [Hd|Hd]; simpl; [|done].
    intros [= <-]. simpl. rewrite Hd. by right.
Qed.

(** X5. [fit] on a scaler as its constructor returns it never fails for
    want of an axis: on every input array it stores the mean and the
    deviation over the axes of the mode ((0, 2) for "channel", 0 for "dim")
    as two new arrays, keeps the mode, and writes to no array that
    existed. *)
Theorem fit_of_constructed (mode : string) (self : ChannelScaler) (X : loc)
  (x : tensor) (h : heap) :
  init mode = Ok self ->
  h !! X = Some x ->
  exists ax,
    norm_axis self = Some ax /\
    (ax = Axes02 <-> norm_method self = "channel") /\
    (ax = Axis0 <-> norm_method self = "dim") /\
    fit self X h =
    (h ++ [np_mean ax x; np_std ax x],
     Ok {| channel_mean_ := Some (length h);
           channel_std_ := Some (S (length h));
           norm_method := norm_method self;
           norm_axis := Some ax |}).
Proof.
  intros Hinit HX.
  assert (forall ax, norm_axis self = Some ax ->
            fit self X h =
            (h ++ [np_mean ax x; np_std ax x],
             Ok {| channel_mean_ := Some (length h);
                   channel_std_ := Some (S (length h));
                   norm_method := norm_method self;
                   norm_axis := Some ax |})) as Hfit.
  { intros ax Hax. unfold fit, bind, deref, alloc, ret. rewrite HX, Hax. simpl.
    rewrite <- app_assoc, length_app. simpl. do 4 f_equal. lia. }
  destruct (constructed_axis mode self Hinit) as [[Hm Hax]|[Hm Hax]].
  - exists Axes02. split; [done|]. split; [done|].
    split; [by rewrite Hm | by apply Hfit].
  - exists Axis0. split; [done|]. split; [by rewrite Hm|].
    split; [done | by apply Hfit].
Qed.

(** X6. [fit_transform] normalises the input by its own statistics. On a
    scaler whose axis is set it stores the mean and the deviation of [X] as
    new arrays, whatever statistics the scaler held before, and returns
    [(X - mean) / std] in a third new array; the input is not written to.
    When the statistics do not stretch to [X] the call raises, the scaler
    keeping the new statistics. With reductions that keep the reduced axes
    (NumPy's [keepdims=True]) they do stretch: for an input of extents
    [(E, C, T)] with an epoch the call returns an array of these extents
    whose entry at (epoch, channel, sample) is the entry of [X] minus the
    mean of the channel, or of the channel and sample, divided by the
    deviation there. *)
Theorem fit_transform_own_statistics (self : ChannelScaler) (X : loc)
  (x : tensor) (ax : axes) (h : heap) :
  h !! X = Some x ->
  norm_axis self = Some ax ->
  let fitted := {| channel_mean_ := Some (length h);
                   channel_std_ := Some (S (length h));
                   norm_method := norm_method self;
                   norm_axis := Some ax |} in
  fst (fst (fit_transform self X h)) !! X = Some x /\
  snd (fst (fit_transform self X h)) = fitted /\
  match normalized x (np_mean ax x) (np_std ax x) with
  | Ok y =>
      fit_transform self X h =
      (h ++ [np_mean ax x; np_std ax x; y], fitted, Ok (S (S (length h))))
  | Raise e =>
      snd (fit_transform self X h) = Raise e /\
      take (S (S (length h))) (fst (fst (fit_transform self X h))) =
        h ++ [np_mean ax x; np_std ax x]
  end /\
  (keepdims ->
   forall E C T : nat,
     (0 < E)%nat ->
     has_shape E C T x ->
     exists y,
       fit_transform self X h =
         (h ++ [np_mean ax x; np_std ax x; y], fitted, Ok (S (S (length h)))) /\
       has_shape E C T y /\
       forall e c t xv,
         at3 x e c t = Some xv ->
         exists mv sv,
           at3 (np_mean ax x) 0 c (stat_time ax t) = Some mv /\
           at3 (np_std ax x) 0 c (stat_time ax t) = Some sv /\
           at3 y e c t = Some ((xv - mv) / sv)%float).
Proof.
  intros HX Hax fitted.
  set (m := np_mean ax x). set (sd := np_std ax x).
  assert (fit self X h = (h ++ [m; sd], Ok fitted)) as Hfit.
  { unfold fit, bind, deref, alloc, ret. rewrite HX, Hax. simpl.
    rewrite <- app_assoc, length_app. simpl. unfold fitted.
    do 4 f_equal. lia. }
  assert (length (h ++ [m; sd]) = S (S (length h))) as Hlen
    by (rewrite length_app; simpl; lia).
  pose proof (transform_steps fitted X (length h) (S (length h)) x m sd
                (h ++ [m; sd]) eq_refl eq_refl) as Ht.
  rewrite Hlen in Ht.
  assert (transform fitted X (h ++ [m; sd]) =
          match elementwise PrimFloat.sub x m with
          | Ok d =>
              match elementwise PrimFloat.div d sd with
              | Ok y => ((h ++ [m; sd]) ++ [y], Ok (S (S (length h))))
              | Raise e => ((h ++ [m; sd]) ++ [d], Raise e)
              end
          | Raise e => ((h ++ [m; sd]) ++ [x], Raise e)
          end) as Ht'.
  { apply Ht.
    - by apply lookup_app_old.
    - rewrite lookup_app_r by lia. by rewrite Nat.sub_diag.
    - rewrite lookup_app_r by lia. by replace (S (length h) - length h)%nat with 1%nat by lia. }
  assert (forall E C T : nat,
            keepdims -> (0 < E)%nat -> has_shape E C T x ->
            exists y,
              normalized x m sd = Ok y /\
              has_shape E C T y /\
              forall e c t xv,
                at3 x e c t = Some xv ->
                exists mv sv,
                  at3 m 0 c (stat_time ax t) = Some mv /\
                  at3 sd 0 c (stat_time ax t) = Some sv /\
                  at3 y e c t = Some ((xv - mv) / sv)%float) as Hshaped.
  { intros E C T Hkeep HE Hx. destruct (Hkeep ax E C T x HE Hx) as [Hms Hsds].
    by apply normalized_shaped. }
  unfold fit_transform. rewrite Hfit, Ht'. revert Hshaped. unfold normalized.
  assert (forall w : tensor,
            take (S (S (length h))) ((h ++ [m; sd]) ++ [w]) = h ++ [m; sd]) as Htake.
  { intros w. rewrite take_app_length'; [done | by rewrite Hlen]. }
  assert (forall w : tensor, ((h ++ [m; sd]) ++ [w]) !! X = Some x) as Hold.
  { intros w. apply lookup_app_old. by apply lookup_app_old. }
  destruct (elementwise PrimFloat.sub x m) as [d|e]; simpl.
  - destruct (elementwise PrimFloat.div d sd) as [y|e]; simpl; intros Hshaped.
    + split; [apply Hold|]. split; [done|]. split; [by rewrite <- app_assoc|].
      intros Hkeep E C T HE Hx.
      destruct (Hshaped E C T Hkeep HE Hx) as (y' & [= <-] & Hys & Hat).
      exists y. rewrite <- app_assoc. done.
    + split; [apply Hold|]. split; [done|]. split; [split; [done | apply Htake]|].
      intros Hkeep E C T HE Hx.
      by destruct (Hshaped E C T Hkeep HE Hx) as (y' & [=] & _).
  - intros Hshaped.
    split; [apply Hold|]. split; [done|]. split; [split; [done | apply Htake]|].
    intros Hkeep E C T HE Hx.
    by destruct (Hshaped E C T Hkeep HE Hx) as (y' & [=] & _).
Qed.

End WithNumPy.

Example fit_transform_channel_mode :
  @fit_transform Reference.numpy
    {| channel_mean_ := None; channel_std_ := None;
       norm_method := "channel"; norm_axis := Some Axes02 |}
    0%nat [[[[1%float; 3%float]]; [[5%float; 7%float]]]]
  = ([[[[1%float; 3%float]]; [[5%float; 7%float]]];
      [[[4%float]]];
      [[[PrimFloat.sqrt 5]]];
      [[[(-3 / PrimFloat.sqrt 5)%float; (-1 / PrimFloat.sqrt 5)%float]];
       [[(1 / PrimFloat.sqrt 5)%float; (3 / PrimFloat.sqrt 5)%float]]]],
     {| channel_mean_ := Some 1%nat; channel_std_ := Some 2%nat;
        norm_method := "channel"; norm_axis := Some Axes02 |},
     Ok 3%nat).
Proof. vm_compute. reflexivity. Qed.

Lemma fit_of_constructed_witness :
  exists ax,
    @fit Reference.numpy
      {| channel_mean_ := None; channel_std_ := None;
         norm_method := "dim"; norm_axis := Some Axis0 |} 0%nat ex_heap =
    (ex_heap ++ [@np_mean Reference.numpy ax ex_x; @np_std Reference.numpy ax ex_x],
     Ok {| channel_mean_ := Some 3%nat; channel_std_ := Some 4%nat;
           norm_method := "dim"; norm_axis := Some ax |}).
Proof.
  destruct (@fit_of_constructed Reference.numpy "DIM" _ 0%nat ex_x ex_heap
              eq_refl eq_refl) as (ax & _ & _ & _ & Hfit).
  exists ax. exact Hfit.
Defined.

(** Two epochs of two channels in channel mode, with the reference
    reductions: the means are 3 and 30, the deviations are those of
    [[1, 2, 3, 3, 4, 5]] and of ten times these values. *)
Lemma fit_transform_own_statistics_witness :
  fst (fst (@fit_transform Reference.numpy ex_scaler 0%nat ex_heap2)) !! 0%nat
    = Some ex_x2 /\
  snd (fst (@fit_transform Reference.numpy ex_scaler 0%nat ex_heap2)) =
    {| channel_mean_ := Some 3%nat; channel_std_ := Some 4%nat;
       norm_method := "channel"; norm_axis := Some Axes02 |} /\
  exists y,
    snd (@fit_transform Reference.numpy ex_scaler 0%nat ex_heap2) = Ok 5%nat /\
    fst (fst (@fit_transform Reference.numpy ex_scaler 0%nat ex_heap2)) !! 5%nat
      = Some y /\
    has_shape 2 2 3 y /\
    at3 y 1 1 2 =
      Some ((50 - 30) / @Reference.deviation [10; 20; 30; 30; 40; 50])%float.
Proof.
  destruct (@fit_transform_own_statistics Reference.numpy ex_scaler 0%nat ex_x2
              Axes02 ex_heap2 eq_refl eq_refl) as (Hin & Hself & _ & Hshaped).
  split; [exact Hin|]. split; [exact Hself|].
  destruct (Hshaped reference_keepdims 2%nat 2%nat 3%nat) as (y & Hy & Hys & Hat).
  - lia.
  - split; [reflexivity | repeat constructor].
  - exists y. rewrite Hy. split; [reflexivity|]. split; [reflexivity|].
    split; [exact Hys|].
    destruct (Hat 1%nat 1%nat 2%nat 50%float eq_refl) as (mv & sv & Hmv & Hsv & ->).
    injection Hmv as <-. injection Hsv as <-. reflexivity.
Defined.

End ScalerUse.

(** ** The wrapper in use: construction, channel selection, persistence *)

Module ModelUse.
Import Scaler Utils Model ArrayFacts ScalerFacts ScalerInitFacts ModelFacts Examples.
Local Open Scope list_scope.

Section WithLibraries.
Context `{SciPy} `{Sklearn}.
Variable cfg : config.
Variable module_dir : string.
Variable find_nearest_time : gmap string file -> string -> string.

Local Abbreviation subj_path_of := (Model.subj_path_of cfg module_dir).
Local Abbreviation date_of := (Model.date_of cfg module_dir find_nearest_time).

Lemma caseless_train mode0 : caseless mode0 "train" <-> lower mode0 = "train".
Proof. by rewrite <- lower_caseless. Qed.

Lemma caseless_test mode0 : caseless mode0 "test" <-> lower mode0 = "test".
Proof. by rewrite <- lower_caseless. Qed.

(** X7. The constructor checks the mode before it reads any file. A mode
    that is neither "train" nor "test" up to the case of its letters raises
    [AssertionError]; "train" in any case returns a wrapper with a fresh
    pipeline (defaults: 3 components, C = 1), an empty dict as coefficient
    store and no index set, for the subject and session the arguments
    resolve to. Neither case reads the session's files, creates an array or
    changes anything. *)
Theorem construct_mode_check (subject : option string) (date : date_arg)
  (mode0 : string) (kw : kwargs) (w : world) :
  (~ caseless mode0 "train" -> ~ caseless mode0 "test" ->
   init cfg module_dir find_nearest_time subject date mode0 kw w
     = (w, Raise AssertionError)) /\
  (caseless mode0 "train" ->
   init cfg module_dir find_nearest_time subject date mode0 kw w
     = (w, Ok {| _subj_path := subj_path_of subject;
                 _date := date_of subject date w;
                 mode := "train";
                 data_dict := PyDict ∅;
                 cls := make_pipeline (default 3 (kw_n_components kw))
                                      (default 1%float (kw_C kw));
                 _ch_ind := None |})).
Proof.
  rewrite caseless_train, caseless_test. split.
  - intros Htr Hte. unfold init, bind, get_world, raise.
    assert (str_in (lower mode0) ["train"; "test"] = false) as ->; [|done].
    unfold str_in. simpl. rewrite orb_false_r.
    apply orb_false_intro; by apply String.eqb_neq.
  - intros Htr. unfold init, bind, get_world, ret. rewrite Htr. simpl.
    unfold subj_path_of, date_of.
    by destruct subject, date, (kw_C kw), (kw_n_components kw).
Qed.

(** X8. What the constructor needs in test mode, in the order it asks for
    it: the coefficient archive, then the pickled pipeline, then the entry
    [ind_ch_scores] of the archive. The first that is missing decides the
    exception ([FileNotFoundError] for a file, [KeyError] for the entry),
    and in each case nothing is created or changed. *)
Theorem init_test_requirements (subject : option string) (date : date_arg)
  (mode0 : string) (kw : kwargs) (w : world) :
  caseless mode0 "test" ->
  let coef := path_join (subj_path_of subject) (date_of subject date w) "coef.npz" in
  let pkl := path_join (subj_path_of subject) (date_of subject date w) "model.pkl" in
  let construct := init cfg module_dir find_nearest_time subject date mode0 kw w in
  (disk w !! coef = None -> construct = (w, Raise (FileNotFoundError coef))) /\
  (forall z, disk w !! coef = Some (NpzArchive z) -> disk w !! pkl = None ->
     construct = (w, Raise (FileNotFoundError pkl))) /\
  (forall z p, disk w !! coef = Some (NpzArchive z) ->
     disk w !! pkl = Some (Pickle p) -> z !! ind_ch_scores = None ->
     construct = (w, Raise (KeyError ind_ch_scores))) /\
  (forall z p v, disk w !! coef = Some (NpzArchive z) ->
     disk w !! pkl = Some (Pickle p) -> z !! ind_ch_scores = Some v ->
     construct =
     ({| mem := mem w ++ [v]; disk := disk w |},
      Ok {| _subj_path := subj_path_of subject;
            _date := date_of subject date w;
            mode := "test"; data_dict := NpzFile z; cls := p;
            _ch_ind := Some (length (mem w)) |})).
Proof.
  rewrite caseless_test. intros Hte coef pkl construct.
  assert (construct =
          (let* dd := np_load coef in
           let* p := joblib_load pkl in
           let* ci := getitem dd ind_ch_scores in
           ret {| _subj_path := subj_path_of subject;
                  _date := date_of subject date w;
                  mode := "test"; data_dict := dd; cls := p;
                  _ch_ind := Some ci |}) w) as ->.
  { unfold construct, init. unfold bind at 1. unfold get_world at 1.
    rewrite Hte. simpl. unfold coef, pkl, subj_path_of, date_of.
    by destruct subject, date. }
  unfold bind, np_load, joblib_load, getitem, raise, ret, new_array.
  split; [|split; [|split]].
  - by intros ->.
  - by intros z -> ->.
  - intros z p -> -> Hz. simpl. by rewrite Hz.
  - intros z p v -> -> Hz. simpl. by rewrite Hz.
Qed.

(** X9. A wrapper constructed in train mode has no index set, and fitting
    it gives it none: until [ch_ind] is assigned, reading the property and
    [extract_feature] with channel selection raise [AttributeError], the
    extractor not being called, while [extract_feature] without channel
    selection is the extractor itself. *)
Theorem no_channel_selection_before_assignment (subject : option string)
  (date : date_arg) (mode0 : string) (kw : kwargs) (w w' : world) (self : t) :
  caseless mode0 "train" ->
  init cfg module_dir find_nearest_time subject date mode0 kw w = (w', Ok self) ->
  forall (X : tensor) (y : list Z) (fitted : t),
    (fitted = self \/ fitted = fst (fit self X y)) ->
    ch_ind fitted = Raise (AttributeError "_ch_ind") /\
    forall (extractor : ndarray -> result ndarray) (data : ndarray) (h : arrays),
      extract_feature fitted extractor data true h = Raise (AttributeError "_ch_ind") /\
      extract_feature fitted extractor data false h = extractor data.
Proof.
  intros Htr Hinit X y fitted Hf.
  rewrite (proj2 (construct_mode_check subject date mode0 kw w) Htr) in Hinit.
  injection Hinit as _ <-.
  assert (_ch_ind fitted = None) as Hnone.
  { destruct Hf as [->| ->]; [done|]. unfold fit. simpl.
    by destruct (pipeline_fit _ X y). }
  unfold extract_feature, ch_ind. rewrite Hnone. done.
Qed.

(** Indexing by an index array. An index [i] is in range when
    [-n <= i < n]; it then selects entry [i mod n]. *)
Lemma take_indices_in_range {A : Type} (idx : list Z) (data : list A) :
  Forall (fun i => - Z.of_nat (length data) <= i < Z.of_nat (length data)) idx ->
  exists sel,
    take_indices idx data = Ok sel /\
    Forall2 (fun i c => data !! Z.to_nat (i mod Z.of_nat (length data)) = Some c)
            idx sel.
Proof.
  intros Hall. unfold take_indices.
  match goal with |- context [traverse ?f idx] => set (pick := f) end.
  assert (forall i, - Z.of_nat (length data) <= i < Z.of_nat (length data) ->
            exists c, pick i = Ok c /\
              data !! Z.to_nat (i mod Z.of_nat (length data)) = Some c) as Hpick.
  { intros i Hi. unfold pick.
    set (j := if i <? 0 then i + Z.of_nat (length data) else i).
    assert (0 <= j < Z.of_nat (length data) /\ j = i mod Z.of_nat (length data))
      as [Hj Hmod].
    { unfold j. destruct (Z.ltb_spec i 0).
      - split; [lia|]. apply Z.mod_unique with (-1); lia.
      - split; [lia|]. symmetry. apply Z.mod_small. lia. }
    destruct (Z.leb_spec 0 j); [|lia]. destruct (Z.ltb_spec j (Z.of_nat (length data))); [|lia].
    simpl. rewrite <- Hmod.
    assert (is_Some (data !! Z.to_nat j)) as [c Hc] by (apply lookup_lt_is_Some; lia).
    rewrite Hc. eauto. }
  assert (Forall (fun i => exists c, pick i = Ok c) idx) as Htot.
  { eapply Forall_impl; [exact Hall|]. intros i Hi.
    destruct (Hpick i Hi) as (c & Hc & _). eauto. }
  destruct (traverse_total pick idx Htot) as [sel Hsel].
  exists sel. split; [done|].
  apply traverse_Forall2 in Hsel. clear Htot. revert Hall.
  induction Hsel as [|i c idx sel Hic _ IH]; intros Hall; [constructor|].
  inversion Hall as [|? ? Hi Hrest]; subst.
  constructor; [|by apply IH].
  destruct (Hpick i Hi) as (c' & Hc' & Hd). congruence.
Qed.

Lemma take_indices_out_of_range {A : Type} (idx : list Z) (data : list A) :
  Exists (fun i => ~ (- Z.of_nat (length data) <= i < Z.of_nat (length data))) idx ->
  take_indices idx data = Raise IndexError.
Proof.
  unfold take_indices.
  match goal with |- context [traverse ?f idx] => set (pick := f) end.
  assert (forall i, exists r, pick i = r /\
            (r = Raise IndexError \/ exists c, r = Ok c)) as Hshape.
  { intros i. eexists. split; [reflexivity|]. unfold pick.
    destruct (_ && _); [|by left].
    destruct (data !! _); [right; eauto | by left]. }
  assert (forall i, ~ (- Z.of_nat (length data) <= i < Z.of_nat (length data)) ->
            pick i = Raise IndexError) as Hbad.
  { intros i Hi. unfold pick.
    destruct (Z.ltb_spec i 0);
      destruct (Z.leb_spec 0 (i + Z.of_nat (length data)));
      destruct (Z.leb_spec 0 i);
      destruct (Z.ltb_spec (i + Z.of_nat (length data)) (Z.of_nat (length data)));
      destruct (Z.ltb_spec i (Z.of_nat (length data))); simpl; try done; lia. }
  induction 1 as [i idx Hi|i idx _ IH]; simpl.
  - by rewrite (Hbad i Hi).
  - destruct (Hshape i) as (r & -> & [->|[c ->]]); [done|].
    by rewrite IH.
Qed.

(** X10. [extract_feature] with channel selection on a stack of [n]
    channels. When every stored index is in [-n, n), the extractor receives
    one channel per index, in the order of the index set, a negative index
    counting from the last channel; when some index is outside, the call
    raises [IndexError] and the extractor is not called. *)
Theorem extract_feature_selects (self : t) (extractor : ndarray -> result ndarray)
  (chans : list ndarray) (h : arrays) (r : ref) (idx : list Z) :
  _ch_ind self = Some r ->
  h !! r = Some idx ->
  let n := Z.of_nat (length chans) in
  (Forall (fun i => - n <= i < n) idx ->
   exists sel,
     extract_feature self extractor (Stack chans) true h = extractor (Stack sel) /\
     Forall2 (fun i c => chans !! Z.to_nat (i mod n) = Some c) idx sel) /\
  (Exists (fun i => ~ (- n <= i < n)) idx ->
   extract_feature self extractor (Stack chans) true h = Raise IndexError).
Proof.
  intros Hci Hidx n. unfold extract_feature, ch_ind. rewrite Hci. simpl.
  rewrite Hidx. split.
  - intros Hall. destruct (take_indices_in_range idx chans Hall) as (sel & -> & Hsel).
    exists sel. done.
  - intros Hex. by rewrite (take_indices_out_of_range idx chans Hex).
Qed.

Lemma merge_sort_sorted (v : list Z) : Sorted Z.le v -> merge_sort Z.le v = v.
Proof.
  intros Hs. apply (Sorted_unique Z.le); [|done|].
  - apply (Sorted_merge_sort Z.le).
  - apply merge_sort_Permutation.
Qed.

(** X11. On a wrapper of train mode, assigning to [ch_ind] selects
    channels in ascending index order whatever the order of the assigned
    array: [extract_feature] with channel selection then passes to the
    extractor, for indices within [0, n), the channels at the assigned
    indices sorted in ascending order. *)
Theorem assigned_selection_is_ascending (self : t) (h : arrays) (value : ref)
  (v : list Z) (d : gmap string ref) (extractor : ndarray -> result ndarray)
  (chans : list ndarray) :
  data_dict self = PyDict d ->
  h !! value = Some v ->
  Forall (fun i => 0 <= i < Z.of_nat (length chans)) v ->
  exists self' h' sel,
    set_ch_ind value (self, h) = ((self', h'), Ok tt) /\
    extract_feature self' extractor (Stack chans) true h' = extractor (Stack sel) /\
    Forall2 (fun i c => chans !! Z.to_nat i = Some c) (merge_sort Z.le v) sel /\
    Sorted Z.le (merge_sort Z.le v) /\
    merge_sort Z.le v ≡ₚ v.
Proof.
  intros Hd Hv Hrange.
  assert (Forall (fun i => - Z.of_nat (length chans) <= i < Z.of_nat (length chans))
            (merge_sort Z.le v)) as Hsorted_range.
  { rewrite merge_sort_Permutation. eapply Forall_impl; [exact Hrange|].
    simpl. intros i Hi. lia. }
  destruct (take_indices_in_range _ chans Hsorted_range) as (sel & Hsel & Hat).
  eexists _, _, sel.
  split; [by apply set_ch_ind_dict|].
  split.
  { unfold extract_feature, ch_ind. simpl.
    rewrite list_lookup_insert_eq by (by eapply lookup_lt_Some).
    by rewrite Hsel. }
  split.
  { assert (Forall (fun i => 0 <= i < Z.of_nat (length chans)) (merge_sort Z.le v))
      as Hnn by (by rewrite merge_sort_Permutation).
    clear Hsel Hsorted_range. revert Hnn.
    induction Hat as [|i c idx sel' Hc _ IH]; intros Hnn; [constructor|].
    inversion Hnn as [|? ? Hi Hrest]; subst.
    constructor; [|by apply IH].
    by rewrite Z.mod_small in Hc by lia. }
  split; [apply (Sorted_merge_sort Z.le) | apply merge_sort_Permutation].
Qed.

(** X12. On a wrapper of train mode, assigning to [ch_ind] the array that
    is already assigned changes nothing: the array stays as the first
    assignment sorted it, and the wrapper is the same. *)
Theorem assignment_idempotent (self : t) (h : arrays) (value : ref)
  (v : list Z) (d : gmap string ref) :
  data_dict self = PyDict d ->
  h !! value = Some v ->
  exists self' h',
    set_ch_ind value (self, h) = ((self', h'), Ok tt) /\
    set_ch_ind value (self', h') = ((self', h'), Ok tt).
Proof.
  intros Hd Hv.
  pose proof (lookup_lt_Some _ _ _ Hv) as Hlt.
  eexists _, _. split; [by apply set_ch_ind_dict|].
  rewrite (set_ch_ind_dict _ _ value (merge_sort Z.le v)
             (<[ind_ch_scores := value]> d));
    [|done|by apply list_lookup_insert_eq].
  rewrite merge_sort_sorted by apply (Sorted_merge_sort Z.le).
  rewrite list_insert_insert_eq, insert_insert_eq. done.
Qed.

Lemma step_consistent subj_path date (s : t * arrays) (c : call) :
  consistent subj_path date s -> consistent subj_path date (step s c).
Proof.
  intros (Hp & Hd & Hm & Hviews). destruct c as [X y|value]; simpl.
  - unfold fit. destruct (pipeline_fit (cls (fst s)) X y) as [p r]. simpl.
    done.
  - destruct s as [self h]. simpl in *.
    destruct (h !! value) as [v|] eqn:Hv.
    + assert (exists d, data_dict self = PyDict d /\
                <[ind_ch_scores := value]> d = <[ind_ch_scores := value]> ∅)
        as (d & Hdd & Hins).
      { destruct Hviews as [[Hdd _]|(r & a & Hdd & _)]; eexists; (split; [exact Hdd|]);
          [done | apply insert_insert_eq]. }
      rewrite (set_ch_ind_dict self h value v d Hdd Hv). simpl.
      repeat split; try done. right.
      exists value, (merge_sort Z.le v). rewrite Hins.
      repeat split; try done.
      * apply list_lookup_insert_eq. by eapply lookup_lt_Some.
      * apply (Sorted_merge_sort Z.le).
    + unfold set_ch_ind, bind, array_sort. simpl. rewrite Hv. simpl.
      done.
Qed.

(** X13. The two views of the index set stay consistent on a wrapper
    constructed in train mode, whatever sequence of [fit] calls and [ch_ind]
    assignments follows (each running whether or not the one before
    raised): the wrapper keeps its session and its mode, and either no
    index set was assigned and the coefficient store is empty, or the
    store's only entry is [ind_ch_scores], it is the very array that
    [ch_ind] returns, and that array is sorted in ascending order. *)
Theorem views_consistent_in_train_mode (subject : option string) (date : date_arg)
  (mode0 : string) (kw : kwargs) (w w' : world) (self : t) (calls : list call) :
  caseless mode0 "train" ->
  init cfg module_dir find_nearest_time subject date mode0 kw w = (w', Ok self) ->
  consistent (subj_path_of subject) (date_of subject date w)
             (run calls (self, mem w')).
Proof.
  intros Htr Hinit.
  rewrite (proj2 (construct_mode_check subject date mode0 kw w) Htr) in Hinit.
  injection Hinit as <- <-.
  unfold run.
  match goal with |- consistent _ _ (fold_left step calls ?s) =>
    assert (consistent (subj_path_of subject) (date_of subject date w) s) as Hs
      by (repeat split; by left);
    revert Hs; generalize s
  end.
  induction calls as [|c calls IH]; intros s Hs; simpl; [done|].
  apply IH. by apply step_consistent.
Qed.

Lemma writable_dir_exists (dk : gmap string file) (dir name : string) :
  writable dk dir name = true -> dir_exists dk dir = true.
Proof. unfold writable. by destruct (dk !! join_component dir name) as [[?|?|]|]. Qed.

Lemma write_file_no_directory (dir name : string) (f : file) (w : world) :
  dir_exists (disk w) dir = false ->
  disk w !! dir = None ->
  disk w !! join_component dir name = None ->
  write_file dir name f w = (w, Raise (FileNotFoundError (join_component dir name))).
Proof.
  intros Hdir Hnone Hpath. unfold write_file, is_file. by rewrite Hpath, Hdir, Hnone.
Qed.

(** What [save_coef] does: nothing for an empty store, else one write. *)
Lemma save_coef_cases (self : t) (w : world) :
  (save_coef self w = (w, Ok tt) /\
   (data_dict self = PyDict ∅ \/ data_dict self = NpzFile ∅)) \/
  (exists z,
     save_coef self w = write_file (session_dir self) "coef.npz" (NpzArchive z) w /\
     ~ (data_dict self = PyDict ∅ \/ data_dict self = NpzFile ∅)).
Proof.
  unfold save_coef. destruct (data_dict self) as [d|z] eqn:Hdd.
  - destruct (decide (d = ∅)) as [->|Hne]; [left; split; [done | by left]|].
    right. eexists. split; [reflexivity|]. intros [[= ->]|[=]]. done.
  - destruct (decide (z = ∅)) as [->|Hne]; [left; split; [done | by right]|].
    right. eexists. split; [reflexivity|]. intros [[=]|[= ->]]. done.
Qed.


(** What a construction in test mode that returns has read. *)
Lemma init_test_inv (subject : option string) (date : date_arg)
  (mode0 : string) (kw : kwargs) (w w' : world) (loaded : t) :
  caseless mode0 "test" ->
  init cfg module_dir find_nearest_time subject date mode0 kw w = (w', Ok loaded) ->
  exists z p v,
    disk w !! path_join (subj_path_of subject) (date_of subject date w) "coef.npz"
      = Some (NpzArchive z) /\
    disk w !! path_join (subj_path_of subject) (date_of subject date w) "model.pkl"
      = Some (Pickle p) /\
    z !! ind_ch_scores = Some v /\
    w' = {| mem := mem w ++ [v]; disk := disk w |} /\
    loaded = {| _subj_path := subj_path_of subject;
                _date := date_of subject date w;
                mode := "test"; data_dict := NpzFile z; cls := p;
                _ch_ind := Some (length (mem w)) |}.
Proof.
  rewrite caseless_test. intros Hte.
  set (coef := path_join (subj_path_of subject) (date_of subject date w) "coef.npz").
  set (pkl := path_join (subj_path_of subject) (date_of subject date w) "model.pkl").
  assert (init cfg module_dir find_nearest_time subject date mode0 kw w =
          (let* dd := np_load coef in
           let* p := joblib_load pkl in
           let* ci := getitem dd ind_ch_scores in
           ret {| _subj_path := subj_path_of subject;
                  _date := date_of subject date w;
                  mode := "test"; data_dict := dd; cls := p;
                  _ch_ind := Some ci |}) w) as ->.
  { unfold init. unfold bind at 1. unfold get_world at 1.
    rewrite Hte. simpl. unfold coef, pkl, subj_path_of, date_of.
    by destruct subject, date. }
  unfold bind, np_load, joblib_load, getitem, raise, ret, new_array.
  destruct (disk w !! coef) as [[z|?|]|] eqn:Hcoef; try done.
  destruct (disk w !! pkl) as [[?|p|]|] eqn:Hpkl; try done.
  destruct (z !! ind_ch_scores) as [v|] eqn:Hkey; [|done]. simpl.
  intros [= <- <-]. eauto 10.
Qed.

(** Dumping a wrapper whose store and pipeline are those on disk. *)
Lemma dump_as_stored (self : t) (w : world) z :
  data_dict self = NpzFile z ->
  z <> ∅ ->
  disk w !! path_join (_subj_path self) (_date self) "coef.npz" = Some (NpzArchive z) ->
  disk w !! path_join (_subj_path self) (_date self) "model.pkl"
    = Some (Pickle (cls self)) ->
  dump self w = (w, Ok tt).
Proof.
  intros Hdd Hne Hcoef Hpkl.
  assert (dir_exists (disk w) (session_dir self) = true) as Hdir.
  { unfold dir_exists, is_file.
    change (join_component (session_dir self) "coef.npz")
      with (path_join (_subj_path self) (_date self) "coef.npz").
    rewrite Hcoef. by rewrite !orb_true_r. }
  assert (forall name f,
            disk w !! join_component (session_dir self) name = Some f ->
            f <> Directory ->
            write_file (session_dir self) name f w = (w, Ok tt)) as Hwrite.
  { intros name f Hf Hnd. rewrite write_file_writable.
    - rewrite insert_id by done. by destruct w.
    - unfold writable. rewrite Hf. by destruct f. }
  unfold dump, save_coef. rewrite Hdd.
  destruct (decide (z = ∅)); [done|]. unfold bind.
  rewrite (Hwrite "coef.npz" (NpzArchive z) Hcoef) by done.
  by rewrite (Hwrite "model.pkl" (Pickle (cls self)) Hpkl).
Qed.

(** X15. A session that was loaded in test mode and is dumped again is on
    disk as it was: [dump] rewrites the archive and the pipeline it
    loaded. *)
Theorem load_then_dump (subject : option string) (date : date_arg)
  (mode0 : string) (kw : kwargs) (w w' : world) (loaded : t) :
  caseless mode0 "test" ->
  init cfg module_dir find_nearest_time subject date mode0 kw w = (w', Ok loaded) ->
  dump loaded w' = (w', Ok tt) /\ disk w' = disk w.
Proof.
  intros Hte Hinit.
  destruct (init_test_inv subject date mode0 kw w w' loaded Hte Hinit)
    as (z & p & v & Hcoef & Hpkl & Hkey & -> & ->).
  split; [|done].
  apply (dump_as_stored _ _ z); try done.
  intros ->. by rewrite lookup_empty in Hkey.
Qed.

(** X16. The index set is persisted as the array holds it when [dump]
    runs, not as it was assigned. On a wrapper of train mode whose session
    can be written to, whatever the caller writes to the assigned array
    after the assignment is what [dump] stores and what a wrapper
    constructed in test mode for the session reads back as its index set,
    sorted or not. *)
Theorem dump_persists_later_writes (self : t) (h : arrays) (disk0 : gmap string file)
  (subject date : string) (kw : kwargs) (value : ref) (v later : list Z)
  (d : gmap string ref) :
  _subj_path self = (module_dir ++ "/../data/" ++ subject)%string ->
  _date self = date ->
  data_dict self = PyDict d ->
  h !! value = Some v ->
  session_writable disk0 (session_dir self) = true ->
  exists self' h' w1 w2 loaded r',
    set_ch_ind value (self, h) = ((self', h'), Ok tt) /\
    dump self' {| mem := <[value := later]> h'; disk := disk0 |} = (w1, Ok tt) /\
    init cfg module_dir find_nearest_time (Some subject) (DateStr date) "test" kw w1
      = (w2, Ok loaded) /\
    ch_ind loaded = Ok r' /\
    mem w2 !! r' = Some later.
Proof.
  intros Hp Hdate Hd Hv Hw.
  pose proof (lookup_lt_Some _ _ _ Hv) as Hlt.
  destruct (dump_then_load cfg module_dir find_nearest_time
              (with_data_dict (with_ch_ind self value)
                 (PyDict (<[ind_ch_scores := value]> d)))
              {| mem := <[value := later]> (<[value := merge_sort Z.le v]> h);
                 disk := disk0 |}
              subject date kw (<[ind_ch_scores := value]> d) value later)
    as (w1 & w2 & loaded & r' & Hdump & Hload & _ & _ & _ & _ & Hci & Hmem);
    try done.
  { apply lookup_insert_eq. }
  { simpl. apply list_lookup_insert_eq. by rewrite length_insert. }
  eexists _, _, w1, w2, loaded, r'.
  split; [by apply set_ch_ind_dict|]. done.
Qed.

(** X17. An assignment to [ch_ind] on a wrapper loaded in test mode is not
    persisted. The assignment raises [TypeError] after the caller's array
    was sorted and became the index set; the coefficient store still holds
    what was loaded, so [dump] leaves the disk as it is, and the session
    read again in test mode has the index set it had before. *)
Theorem test_mode_assignment_not_persisted (subject : option string)
  (date : date_arg) (mode0 : string) (kw : kwargs) (w w' : world) (loaded : t)
  (value : ref) (v : list Z) :
  caseless mode0 "test" ->
  init cfg module_dir find_nearest_time subject date mode0 kw w = (w', Ok loaded) ->
  mem w' !! value = Some v ->
  exists h'',
    set_ch_ind value (loaded, mem w') =
      ((with_ch_ind loaded value, h''),
       Raise (TypeError "'NpzFile' object does not support item assignment")) /\
    h'' !! value = Some (merge_sort Z.le v) /\
    dump (with_ch_ind loaded value) {| mem := h''; disk := disk w' |} =
      ({| mem := h''; disk := disk w |}, Ok tt).
Proof.
  intros Hte Hinit Hv.
  destruct (init_test_inv subject date mode0 kw w w' loaded Hte Hinit)
    as (z & p & v0 & Hcoef & Hpkl & Hkey & -> & ->).
  exists (<[value := merge_sort Z.le v]> (mem w ++ [v0])).
  split; [by apply (set_ch_ind_npz _ _ value v z)|].
  split; [apply list_lookup_insert_eq; by eapply lookup_lt_Some|].
  apply (dump_as_stored _ _ z); try done.
  intros ->. by rewrite lookup_empty in Hkey.
Qed.

Lemma every_lookup {A : Type} (d k j : nat) (row : list A) :
  (1 <= d)%nat -> every d k row !! j = row !! (k + j * d)%nat.
Proof.
  intros Hd. revert k j. induction row as [|x row IH]; intros k j; simpl.
  - by rewrite !lookup_nil.
  - destruct k as [|k]; simpl.
    + destruct j as [|j]; [done|].
      replace (S j * d)%nat with (S (pred d + j * d)) by lia.
      simpl. apply IH.
    + apply IH.
Qed.

(** X19. The decimation [epochs[..., ::down_ratio]]. For a positive ratio
    [d] it keeps the epochs and channels as they are and of every channel
    the samples at 0, d, 2d, ...: sample [k] of the result is sample
    [k * d] of the input, and the result has a sample [k] exactly when
    [k * d] is within the channel. For the ratio zero (a target rate above
    the native rate) it raises [ValueError] on every tensor. *)
Theorem downsample_keeps_every_dth (d : Z) (epochs : tensor) :
  (0 < d ->
   exists out,
     downsample d epochs = Ok out /\
     length out = length epochs /\
     map length out = map length epochs /\
     (forall e c k, at3 out e c k = at3 epochs e c (k * Z.to_nat d)%nat) /\
     (forall e c k row, (epochs !! e) ≫= (.!! c) = Some row ->
        is_Some (at3 out e c k) <-> (k * Z.to_nat d < length row)%nat)) /\
  (d = 0 ->
   downsample d epochs = Raise (ValueError "slice step cannot be zero")).
Proof.
  split.
  - intros Hd. rewrite (downsample_positive d epochs Hd). eexists. split; [done|].
    assert (forall e c k,
              at3 (map (map (every (Z.to_nat d) 0)) epochs) e c k =
              at3 epochs e c (k * Z.to_nat d)%nat) as Hat.
    { intros e c k. unfold at3. rewrite list_lookup_fmap.
      destruct (epochs !! e) as [ep|]; simpl; [|done].
      rewrite list_lookup_fmap. destruct (ep !! c) as [row|]; simpl; [|done].
      rewrite every_lookup by lia. done. }
    split; [by rewrite length_map|].
    split.
    { rewrite map_map. apply map_ext. intros ep. by rewrite length_map. }
    split; [done|].
    intros e c k row Hrow. rewrite Hat. unfold at3.
    destruct (epochs !! e) as [ep|]; simpl in *; [|done].
    rewrite Hrow. simpl. apply lookup_lt_is_Some.
  - by intros ->.
Qed.

(** X20. With a target rate of zero [raw2epoch] never returns an epoch
    tensor: it raises [KeyError] for an unsupported recording type, and
    otherwise [ZeroDivisionError] when the ratio is computed, unless the
    segmenting raised before. *)
Theorem raw2epoch_zero_target_rate (raw_data : list (list float))
  (timestamps : list Z) (events : list (list nat)) :
  downsamp cfg = 0 ->
  exists e,
    raw2epoch cfg raw_data timestamps events = Raise e /\
    (rec_type cfg <> "eeg" -> e = KeyError "Unsupported recording type.") /\
    (rec_type cfg = "eeg" ->
     e = ZeroDivisionError \/
     sort_epochs (cut_epochs (off_start cfg, off_end cfg, samplerate cfg)
                             raw_data timestamps) events = Raise e).
Proof.
  intros Hz. unfold raw2epoch, int_div. rewrite Hz.
  destruct (String.eqb_spec (rec_type cfg) "eeg") as [Hty|Hty].
  - exists ZeroDivisionError. split; [reflexivity|]. split; [done | by left].
  - eexists. split; [reflexivity|]. split; [done|]. done.
Qed.

End WithLibraries.

(** *** The properties above on concrete sessions *)

Lemma init_test_requirements_witness :
  init Reference.cfg here Reference.latest (Some "S1") (DateStr session) "TEST"
    no_kwargs stored_world =
  ({| mem := [[3; 1; 2]; [0; 5]]; disk := disk stored_world |}, Ok ex_loaded).
Proof.
  destruct (init_test_requirements Reference.cfg here Reference.latest (Some "S1")
              (DateStr session) "TEST" no_kwargs stored_world)
    as (_ & _ & _ & Hok).
  - apply caseless_test. reflexivity.
  - exact (Hok _ _ _ eq_refl eq_refl eq_refl).
Defined.

Lemma no_channel_selection_before_assignment_witness :
  ch_ind ex_fitted = Raise (AttributeError "_ch_ind") /\
  extract_feature ex_fitted Ok ex_chans true [[3; 1; 2]]
    = Raise (AttributeError "_ch_ind") /\
  extract_feature ex_fitted Ok ex_chans false [[3; 1; 2]] = Ok ex_chans.
Proof.
  destruct (no_channel_selection_before_assignment Reference.cfg here
              Reference.latest (Some "S1") (DateStr session) "Train" no_kwargs
              fresh_world fresh_world ex_new)
    with (X := ex_X) (y := ex_y) (fitted := ex_fitted) as [Hget Hext].
  - apply caseless_train. reflexivity.
  - reflexivity.
  - right. reflexivity.
  - split; [exact Hget | exact (Hext Ok ex_chans [[3; 1; 2]])].
Defined.

Lemma extract_feature_selects_witness :
  exists sel,
    extract_feature ex_selected Ok ex_chans true [[1; 2; -1]] = Ok (Stack sel) /\
    Forall2 (fun i c => ex_rows !! Z.to_nat (i mod 4) = Some c) [1; 2; -1] sel.
Proof.
  destruct (extract_feature_selects ex_selected Ok ex_rows [[1; 2; -1]] 0%nat
              [1; 2; -1] eq_refl eq_refl) as [Hin _].
  apply Hin. repeat constructor; done.
Defined.

Lemma assigned_selection_is_ascending_witness :
  exists self' h' sel,
    set_ch_ind 0%nat (ex_fitted, [[3; 1; 2]]) = ((self', h'), Ok tt) /\
    extract_feature self' Ok ex_chans true h' = Ok (Stack sel) /\
    Forall2 (fun i c => ex_rows !! Z.to_nat i = Some c) (merge_sort Z.le [3; 1; 2]) sel.
Proof.
  destruct (assigned_selection_is_ascending ex_fitted [[3; 1; 2]] 0%nat [3; 1; 2] ∅
              Ok ex_rows eq_refl eq_refl)
    as (self' & h' & sel & Hset & Hext & Hsel & _).
  - repeat constructor; done.
  - exists self', h', sel. repeat split; assumption.
Defined.

Lemma assignment_idempotent_witness :
  exists self' h',
    set_ch_ind 0%nat (ex_fitted, [[3; 1; 2]]) = ((self', h'), Ok tt) /\
    set_ch_ind 0%nat (self', h') = ((self', h'), Ok tt).
Proof.
  apply (assignment_idempotent ex_fitted [[3; 1; 2]] 0%nat [3; 1; 2] ∅); reflexivity.
Defined.

Lemma views_consistent_in_train_mode_witness :
  consistent "/repo/Offline/../data/S1" session
    (run [Assign 0%nat; CallFit ex_X ex_y; Assign 7%nat; Assign 0%nat]
         (ex_new, [[3; 1; 2]])).
Proof.
  apply (views_consistent_in_train_mode Reference.cfg here Reference.latest
           (Some "S1") (DateStr session) "train" no_kwargs fresh_world fresh_world
           ex_new).
  - apply caseless_train. reflexivity.
  - reflexivity.
Defined.

Lemma load_then_dump_witness :
  dump ex_loaded {| mem := [[3; 1; 2]; [0; 5]]; disk := disk stored_world |} =
  ({| mem := [[3; 1; 2]; [0; 5]]; disk := disk stored_world |}, Ok tt).
Proof.
  destruct (load_then_dump Reference.cfg here Reference.latest (Some "S1")
              (DateStr session) "test" no_kwargs stored_world
              {| mem := [[3; 1; 2]; [0; 5]]; disk := disk stored_world |} ex_loaded)
    as [Hdump _].
  - apply caseless_test. reflexivity.
  - reflexivity.
  - exact Hdump.
Defined.

Lemma dump_persists_later_writes_witness :
  exists self' h' w1 w2 loaded r',
    set_ch_ind 0%nat (ex_fitted, [[3; 1; 2]]) = ((self', h'), Ok tt) /\
    dump self' {| mem := <[0%nat := [9; 4]]> h'; disk := disk fresh_world |}
      = (w1, Ok tt) /\
    init Reference.cfg here Reference.latest (Some "S1") (DateStr session) "test"
      no_kwargs w1 = (w2, Ok loaded) /\
    ch_ind loaded = Ok r' /\
    mem w2 !! r' = Some [9; 4].
Proof.
  apply (dump_persists_later_writes Reference.cfg here Reference.latest ex_fitted
           [[3; 1; 2]] (disk fresh_world) "S1" session no_kwargs 0%nat [3; 1; 2]
           [9; 4] ∅);
    reflexivity.
Defined.

Lemma test_mode_assignment_not_persisted_witness :
  exists h'',
    set_ch_ind 0%nat (ex_loaded, [[3; 1; 2]; [0; 5]]) =
      ((with_ch_ind ex_loaded 0%nat, h''),
       Raise (TypeError "'NpzFile' object does not support item assignment")) /\
    h'' !! 0%nat = Some (merge_sort Z.le [3; 1; 2]) /\
    dump (with_ch_ind ex_loaded 0%nat) {| mem := h''; disk := disk stored_world |} =
      ({| mem := h''; disk := disk stored_world |}, Ok tt).
Proof.
  apply (test_mode_assignment_not_persisted Reference.cfg here Reference.latest
           (Some "S1") (DateStr session) "test" no_kwargs stored_world
           {| mem := [[3; 1; 2]; [0; 5]]; disk := disk stored_world |} ex_loaded
           0%nat [3; 1; 2]).
  - apply caseless_test. reflexivity.
  - reflexivity.
  - reflexivity.
Defined.

Lemma downsample_keeps_every_dth_witness :
  exists out,
    downsample 2 ex_epochs = Ok out /\
    length out = length ex_epochs /\
    map length out = map length ex_epochs /\
    (forall e c k, at3 out e c k = at3 ex_epochs e c (k * 2)%nat).
Proof.
  destruct (proj1 (downsample_keeps_every_dth 2 ex_epochs))
    as (out & Hout & Hlen & Hchan & Hat & _).
  - lia.
  - exists out. repeat split; assumption.
Defined.

Lemma raw2epoch_zero_target_rate_witness :
  exists e,
    @raw2epoch Reference.scipy zero_rate_cfg ex_raw [4; 10] [[1%nat; 0%nat]] = Raise e.
Proof.
  destruct (@raw2epoch_zero_target_rate Reference.scipy zero_rate_cfg ex_raw [4; 10]
              [[1%nat; 0%nat]] eq_refl) as (e & He & _).
  exists e. exact He.
Defined.

Example downsample_by_two :
  downsample 2 ex_epochs =
  Ok [[[0%float; 2%float; 4%float]]; [[10%float; 12%float; 14%float]]].
Proof. reflexivity. Qed.

Example other_session_is_missing :
  snd (init Reference.cfg here Reference.latest (Some "S1")
         (DateStr "2021-06-30-12-00-00") "test" no_kwargs stored_world) =
  Raise (FileNotFoundError
           "/repo/Offline/../data/S1/2021-06-30-12-00-00/coef.npz").
Proof. reflexivity. Qed.

End ModelUse.
